(** * exprcheck: the semantic checking pass of the expression language

    A shallow embedding of [src/exprcheck.py]: the symbol table, the
    [CheckProgramVisitor] rules and [check_program].

    Python objects are mutated in place and shared between the tree and the
    symbol table, so every node carries the identity of its object ([oid])
    and the attribute [check_type] lives in a store keyed by that identity.
    An attribute is either absent (what [hasattr] tests), present with the
    value [None], or present with a type.  Exceptions ([AttributeError],
    [NameError]) are outcomes of their own: they keep the state reached when
    they were raised, diagnostics included. *)

From Stdlib Require Import Floats.
From stdpp Require Import base option list strings gmap.

Open Scope string_scope.

(** ** Python values carried by literals *)

(** The runtime classes [type(node.value)] can return. *)
Inductive pytype :=
| PyIntT | PyFloatT | PyStrT | PyBoolT | PyNoneT
| PyClassT (cls : string).

Inductive pyvalue :=
| PyInt (z : Z)
| PyFloat (f : float)
| PyStr (s : string)
| PyBool (b : bool)
| PyNone
| PyObject (cls : string).

(** [type(value)]; a [bool] is of class [bool], not [int]. *)
Definition type_of (v : pyvalue) : pytype :=
  match v with
  | PyInt _ => PyIntT
  | PyFloat _ => PyFloatT
  | PyStr _ => PyStrT
  | PyBool _ => PyBoolT
  | PyNone => PyNoneT
  | PyObject cls => PyClassT cls
  end.

(** ** The type registry *)

(** Modelled from the spec: exprtype.py is not part of the sources.  It
    provides exactly four built-in instances of [ExprType], compared by
    identity. *)
Inductive ExprType := IntType | FloatType | StringType | BoolType.

#[global] Instance ExprType_eq_dec : EqDecision ExprType.
Proof. solve_decision. Defined.

(** Modelled from the spec: the [typename] attribute of exprtype.py's
    instances (a Type is identified by its name). *)
Definition typename (t : ExprType) : string :=
  match t with
  | IntType => "int"
  | FloatType => "float"
  | StringType => "string"
  | BoolType => "bool"
  end.

(** Modelled from the spec: the [unary_ops] sets of exprtype.py, as in the
    capability table (and in the module docstring of exprcheck.py). *)
Definition unary_ops (t : ExprType) : list string :=
  match t with
  | IntType | FloatType => ["+"; "-"]
  | StringType | BoolType => []
  end.

(** Modelled from the spec: the [binary_ops] sets of exprtype.py. *)
Definition binary_ops (t : ExprType) : list string :=
  match t with
  | IntType | FloatType => ["+"; "-"; "*"; "/"]
  | StringType => ["+"]
  | BoolType => []
  end.

(** Modelled from the spec: the [default] values of exprtype.py. *)
Definition default (t : ExprType) : pyvalue :=
  match t with
  | IntType => PyInt 0
  | FloatType => PyFloat 0%float
  | StringType => PyStr ""
  | BoolType => PyBool false
  end.

(** [self.typemap.get(valtype, None)] *)
Definition typemap (k : pytype) : option ExprType :=
  match k with
  | PyIntT => Some IntType
  | PyFloatT => Some FloatType
  | PyStrT => Some StringType
  | PyBoolT => Some BoolType
  | _ => None
  end.

(** [op in ops] *)
Definition op_in (op : string) (ops : list string) : bool :=
  bool_decide (op ∈ ops).

(** ** The syntax tree *)

(** Modelled from the spec: the node classes of exprast.py, with the fields
    exprcheck.py reads.  [oid] is the identity of the node object: distinct
    nodes of a parsed tree have distinct identities, and two occurrences of
    one identity are one shared object. *)
Definition oid := nat.

Record Location := mkLocation {
  loc_oid : oid; loc_lineno : nat; loc_name : string }.

Record Typename := mkTypename {
  tn_oid : oid; tn_lineno : nat; tn_name : string }.

Inductive expr :=
| Literal (o : oid) (lineno : nat) (value : pyvalue)
| LoadLocation (o : oid) (lineno : nat) (location : Location)
| Unaryop (o : oid) (lineno : nat) (op : string) (e : expr)
| Binop (o : oid) (lineno : nat) (op : string) (left right : expr)
| Relop (o : oid) (lineno : nat) (op : string) (left right : expr).

Definition expr_oid (e : expr) : oid :=
  match e with
  | Literal o _ _ | LoadLocation o _ _ | Unaryop o _ _ _
  | Binop o _ _ _ _ | Relop o _ _ _ _ => o
  end.

Record ConstDeclaration := mkConst {
  cd_oid : oid; cd_lineno : nat; cd_name : string; cd_expr : expr }.

(** [vd_expr] is [None] when the declaration has no initializer. *)
Record VarDeclaration := mkVar {
  vd_oid : oid; vd_lineno : nat; vd_name : string;
  vd_typename : Typename; vd_expr : option expr }.

Record AssignmentStatement := mkAssign {
  as_lineno : nat; as_location : Location; as_expr : expr }.

Inductive statement :=
| SConst (d : ConstDeclaration)
| SVar (d : VarDeclaration)
| SAssign (a : AssignmentStatement).

(** [node.statements.statements] of a Program node. *)
Record Program := mkProgram { statements : list statement }.

(** ** The symbol table and the state of a pass *)

(** What a name is bound to: a built-in type, a declaration node, or (after
    [visit_Program] recorded an assignment) an expression node. *)
Inductive symbol :=
| SymType (t : ExprType)
| SymVar (d : VarDeclaration)
| SymConst (d : ConstDeclaration)
| SymExpr (e : expr).

(** The Literal object [visit_VarDeclaration] installs as initializer. *)
Record DefaultLiteral := mkDefault {
  dl_value : pyvalue; dl_check_type : option ExprType }.

(** Diagnostics passed to [error(lineno, message)], one constructor per
    format string of exprcheck.py with the formatted arguments. *)
Inductive message :=
| UnaryNotSupported (op : string)
| BinaryMismatch (op : string)
| BinaryNotSupported (op side : string)
| RelMismatch (op : string)
| RelNotSupported (op side : string)
| NameNotDefined (name : string)
| CannotAssign (value_type declared_type : option ExprType)
| CannotAssignConst (name : string)
| RedefineConst (name : string)
| RedefineVar (name : string)
| NotValidType (name : string)
| NameNotFound (name : string)
| CannotUseType (tname : string)
| UnrecognizedType (valtype : pytype).

Inductive exn :=
| AttributeError (owner attribute : string)
| NameError (name : string).

(** [symtab]: the SymbolTable dict.  [types]: the [check_type] attribute of
    each node object (no entry: no attribute).  [inits]: the [expr] field
    as rewritten by [visit_VarDeclaration], [vd_expr] being the field as
    parsed.  [errors]: what the error sink has received, oldest first. *)
Record state := mkState {
  symtab : gmap string symbol;
  types : gmap oid (option ExprType);
  inits : gmap oid DefaultLiteral;
  errors : list (nat * message) }.

Inductive outcome (A : Type) :=
| Ok (a : A) (s : state)
| Raise (e : exn) (s : state).
Arguments Ok {A} a s.
Arguments Raise {A} e s.

Definition final_state {A} (o : outcome A) : state :=
  match o with Ok _ s | Raise _ s => s end.

Definition returns {A} (o : outcome A) : bool :=
  match o with Ok _ _ => true | Raise _ _ => false end.

Definition M (A : Type) : Type := state → outcome A.

#[global] Instance M_ret : MRet M := λ A a s, Ok a s.
#[global] Instance M_bind : MBind M := λ A B f m s,
  match m s with
  | Ok a s' => f a s'
  | Raise e s' => Raise e s'
  end.

Definition raise {A} (e : exn) : M A := λ s, Raise e s.

(** The four in-place updates of a pass. *)
Definition report (s : state) (lineno : nat) (msg : message) : state :=
  mkState (symtab s) (types s) (inits s) (errors s ++ [(lineno, msg)]).

Definition bind_name (s : state) (name : string) (value : symbol) : state :=
  mkState (<[name := value]> (symtab s)) (types s) (inits s) (errors s).

Definition attach (s : state) (o : oid) (v : option ExprType) : state :=
  mkState (symtab s) (<[o := v]> (types s)) (inits s) (errors s).

Definition install (s : state) (o : oid) (l : DefaultLiteral) : state :=
  mkState (symtab s) (types s) (<[o := l]> (inits s)) (errors s).

(** [error(lineno, message)].
    Modelled from the spec: errors.py is not part of the sources; the error
    sink records the pair and returns. *)
Definition error (lineno : nat) (msg : message) : M unit := λ s,
  Ok tt (report s lineno msg).

(** [SymbolTable.add] *)
Definition add (name : string) (value : symbol) : M unit := λ s,
  Ok tt (bind_name s name value).

(** [SymbolTable.lookup]: [self.get(name, None)] *)
Definition lookup (name : string) : M (option symbol) := λ s,
  Ok (symtab s !! name) s.

(** [hasattr(node, "check_type")] *)
Definition hasattr_check_type (o : oid) : M bool := λ s,
  Ok (bool_decide (is_Some (types s !! o))) s.

(** [node.check_type], read: an AttributeError when the attribute is absent. *)
Definition get_check_type (cls : string) (o : oid) : M (option ExprType) := λ s,
  match types s !! o with
  | Some v => Ok v s
  | None => Raise (AttributeError cls "check_type") s
  end.

(** [node.check_type = v] *)
Definition set_check_type (o : oid) (v : option ExprType) : M unit := λ s,
  Ok tt (attach s o v).

(** [node.expr = Literal(default); node.expr.check_type = t] *)
Definition set_default_expr (o : oid) (l : DefaultLiteral) : M unit := λ s,
  Ok tt (install s o l).

(** [sym.check_type] for a symbol-table entry that is not [None].
    Modelled from the spec: a Type object has no [check_type] attribute. *)
Definition sym_check_type (sym : symbol) : M (option ExprType) :=
  match sym with
  | SymType _ => raise (AttributeError "ExprType" "check_type")
  | SymVar d => get_check_type "VarDeclaration" (vd_oid d)
  | SymConst d => get_check_type "ConstDeclaration" (cd_oid d)
  | SymExpr e => get_check_type "expr" (expr_oid e)
  end.

(** The attribute [attr] of [t.check_type] where that value may be [None]. *)
Definition of_type (attr : string) (t : option ExprType) : M ExprType :=
  match t with
  | Some t => mret t
  | None => raise (AttributeError "NoneType" attr)
  end.

(** ** The checking visitor *)

Section Checker.

(** The [rel_ops] sets of exprtype.py, which is not part of the sources and
    which the specification leaves to the language: a parameter. *)
Variable rel_ops : ExprType → list string.

(** [CheckProgramVisitor.__init__]: the pre-seeded symbol table; no node
    of a freshly parsed tree has attributes and nothing was reported. *)
Definition init_symtab : gmap string symbol :=
  <["bool" := SymType BoolType]> (<["string" := SymType StringType]>
  (<["float" := SymType FloatType]> (<["int" := SymType IntType]> ∅))).

Definition init_state : state := mkState init_symtab ∅ ∅ [].

Definition check_type_unary (lineno : nat) (op : string) (val : expr)
  : M (option ExprType) :=
  has ← hasattr_check_type (expr_oid val);
  if has : bool then
    ct ← get_check_type "expr" (expr_oid val);
    t ← of_type "unary_ops" ct;
    (if op_in op (unary_ops t) then mret tt
     else error lineno (UnaryNotSupported op));;
    mret (Some t)
  else mret None.

Definition check_type_binary (lineno : nat) (op : string) (left right : expr)
  : M (option ExprType) :=
  hl ← hasattr_check_type (expr_oid left);
  hr ← hasattr_check_type (expr_oid right);
  if hl && hr then
    lt ← get_check_type "expr" (expr_oid left);
    rt ← get_check_type "expr" (expr_oid right);
    if bool_decide (lt ≠ rt) then
      error lineno (BinaryMismatch op);; mret lt
    else
      tl ← of_type "binary_ops" lt;
      let errside := if op_in op (binary_ops tl) then None else Some "LHS" in
      tr ← of_type "binary_ops" rt;
      let errside := if op_in op (binary_ops tr) then errside else Some "RHS" in
      match errside with
      | Some side => error lineno (BinaryNotSupported op side)
      | None => mret tt
      end;;
      mret (Some tl)
  else mret None.

Definition check_type_rel (lineno : nat) (op : string) (left right : expr)
  : M (option ExprType) :=
  hl ← hasattr_check_type (expr_oid left);
  hr ← hasattr_check_type (expr_oid right);
  if hl && hr then
    lt ← get_check_type "expr" (expr_oid left);
    rt ← get_check_type "expr" (expr_oid right);
    if bool_decide (lt ≠ rt) then
      error lineno (RelMismatch op);; mret lt
    else
      tl ← of_type "rel_ops" lt;
      let errside := if op_in op (rel_ops tl) then None else Some "LHS" in
      tr ← of_type "rel_ops" rt;
      let errside := if op_in op (rel_ops tr) then errside else Some "RHS" in
      match errside with
      | Some side => error lineno (RelNotSupported op side)
      | None => mret tt
      end;;
      mret (Some BoolType)
  else mret None.

Definition visit_Literal (o : oid) (lineno : nat) (value : pyvalue) : M unit :=
  let valtype := type_of value in
  let check_type := typemap valtype in
  match check_type with
  | None => error lineno (UnrecognizedType valtype)
  | Some _ => mret tt
  end;;
  set_check_type o check_type.

(** The name [valtype] is not bound in this method: evaluating the
    arguments of the [error] call raises a NameError. *)
Definition visit_LoadLocation (o : oid) (lineno : nat) (location : Location)
  : M unit :=
  sym ← lookup (loc_name location);
  match sym with
  | None => error lineno (NameNotFound (loc_name location))
  | Some (SymType t) => error lineno (CannotUseType (typename t))
  | Some sym =>
      check_type ← sym_check_type sym;
      match check_type with
      | None => raise (NameError "valtype")
      | Some _ => mret tt
      end;;
      set_check_type o check_type
  end.

(** [NodeVisitor.visit] on the expression nodes: dispatch on the class. *)
Fixpoint visit_expr (e : expr) : M unit :=
  match e with
  | Literal o lineno value => visit_Literal o lineno value
  | LoadLocation o lineno location => visit_LoadLocation o lineno location
  | Unaryop o lineno op e1 =>
      visit_expr e1;;
      check_type ← check_type_unary lineno op e1;
      set_check_type o check_type
  | Binop o lineno op l r =>
      visit_expr l;;
      visit_expr r;;
      check_type ← check_type_binary lineno op l r;
      set_check_type o check_type
  | Relop o lineno op l r =>
      visit_expr l;;
      visit_expr r;;
      check_type ← check_type_rel lineno op l r;
      set_check_type o check_type
  end.

(** [self.visit(node.expr)] where the field may hold [None].
    Modelled from the spec: [NodeVisitor.visit] of exprast.py does nothing
    on [None]. *)
Definition visit_opt_expr (e : option expr) : M unit :=
  match e with
  | Some e => visit_expr e
  | None => mret tt
  end.

Definition visit_Typename (node : Typename) : M unit :=
  sym ← lookup (tn_name node);
  match sym with
  | Some (SymType t) => set_check_type (tn_oid node) (Some t)
  | _ => error (tn_lineno node) (NotValidType (tn_name node))
  end.

(** [sym] is falsy only when it is [None]; reading [check_type] off [None]
    raises. *)
Definition visit_Location (node : Location) : M unit :=
  sym ← lookup (loc_name node);
  match sym with
  | None =>
      error (loc_lineno node) (NameNotFound (loc_name node));;
      raise (AttributeError "NoneType" "check_type")
  | Some sym =>
      check_type ← sym_check_type sym;
      set_check_type (loc_oid node) check_type
  end.

(** Step 3 of [visit_AssignmentStatement]. *)
Definition check_location_type (node : AssignmentStatement) : M unit :=
  hl ← hasattr_check_type (loc_oid (as_location node));
  he ← hasattr_check_type (expr_oid (as_expr node));
  if hl && he then
    declared_type ← get_check_type "Location" (loc_oid (as_location node));
    value_type ← get_check_type "expr" (expr_oid (as_expr node));
    if bool_decide (declared_type ≠ value_type) then
      error (as_lineno node) (CannotAssign value_type declared_type)
    else mret tt
  else mret tt.

Definition visit_AssignmentStatement (node : AssignmentStatement) : M unit :=
  sym ← lookup (loc_name (as_location node));
  match sym with
  | None => error (as_lineno node) (NameNotDefined (loc_name (as_location node)))
  | Some _ => mret tt
  end;;
  visit_expr (as_expr node);;
  match sym with
  | Some (SymVar d) =>
      hs ← hasattr_check_type (vd_oid d);
      he ← hasattr_check_type (expr_oid (as_expr node));
      if hs && he then
        declared_type ← get_check_type "VarDeclaration" (vd_oid d);
        value_type ← get_check_type "expr" (expr_oid (as_expr node));
        if bool_decide (declared_type ≠ value_type) then
          error (as_lineno node) (CannotAssign value_type declared_type)
        else check_location_type node
      else check_location_type node
  | Some (SymConst d) =>
      error (as_lineno node) (CannotAssignConst (cd_name d))
  | _ => check_location_type node
  end.

Definition visit_ConstDeclaration (node : ConstDeclaration) : M unit :=
  sym ← lookup (cd_name node);
  match sym with
  | Some _ => error (cd_lineno node) (RedefineConst (cd_name node))
  | None => mret tt
  end;;
  add (cd_name node) (SymConst node);;
  visit_expr (cd_expr node);;
  check_type ← get_check_type "expr" (expr_oid (cd_expr node));
  set_check_type (cd_oid node) check_type.

Definition visit_VarDeclaration (node : VarDeclaration) : M unit :=
  sym ← lookup (vd_name node);
  match sym with
  | Some _ => error (vd_lineno node) (RedefineVar (vd_name node))
  | None =>
      add (vd_name node) (SymVar node);;
      visit_Typename (vd_typename node);;
      ht ← hasattr_check_type (tn_oid (vd_typename node));
      (if ht : bool then
         check_type ← get_check_type "Typename" (tn_oid (vd_typename node));
         set_check_type (vd_oid node) check_type
       else mret tt);;
      visit_opt_expr (vd_expr node);;
      match vd_expr node with
      | None =>
          check_type ← get_check_type "VarDeclaration" (vd_oid node);
          t ← of_type "default" check_type;
          set_default_expr (vd_oid node) (mkDefault (default t) check_type)
      | Some _ => mret tt
      end
  end.

(** [NodeVisitor.visit] on the statement nodes. *)
Definition visit_statement (st : statement) : M unit :=
  match st with
  | SConst d => visit_ConstDeclaration d
  | SVar d => visit_VarDeclaration d
  | SAssign a => visit_AssignmentStatement a
  end.

(** The loop of [visit_Program]: visit the statement, then record an
    assignment's source expression under the target name.  (The method
    also stores the table on the Program node, which the pass never reads
    back.) *)
Fixpoint visit_statements (l : list statement) : M unit :=
  match l with
  | [] => mret tt
  | st :: rest =>
      visit_statement st;;
      match st with
      | SAssign a => add (loc_name (as_location a)) (SymExpr (as_expr a))
      | _ => mret tt
      end;;
      visit_statements rest
  end.

Definition visit_Program (node : Program) : M unit :=
  visit_statements (statements node).

(** [check_program]: a fresh visitor on the root node. *)
Definition check_program (node : Program) : outcome unit :=
  visit_Program node init_state.

End Checker.

(** ** Example programs *)

(** A table of relational operators for the closed examples: the six
    comparisons on the ordered types, equality tests on [bool]. *)
Definition comparison_ops (t : ExprType) : list string :=
  match t with
  | BoolType => ["=="; "!="]
  | _ => ["<"; "<="; ">"; ">="; "=="; "!="]
  end.

#[local] Set Warnings "-inexact-float".

(** [a = 3; var a int;] *)
Definition prog_use_before_decl : Program := mkProgram [
  SAssign (mkAssign 1 (mkLocation 1 1 "a") (Literal 2 1 (PyInt 3)));
  SVar (mkVar 3 2 "a" (mkTypename 4 2 "int") None) ].

(** [var a int = 2; var b float = 3.14; var d int = a + b;] *)
Definition prog_int_plus_float : Program := mkProgram [
  SVar (mkVar 1 1 "a" (mkTypename 2 1 "int") (Some (Literal 3 1 (PyInt 2))));
  SVar (mkVar 4 2 "b" (mkTypename 5 2 "float")
          (Some (Literal 6 2 (PyFloat 3.14%float))));
  SVar (mkVar 7 3 "d" (mkTypename 8 3 "int")
          (Some (Binop 9 3 "+"
                   (LoadLocation 10 3 (mkLocation 11 3 "a"))
                   (LoadLocation 12 3 (mkLocation 13 3 "b"))))) ].

(** [var b float = 3.14; var e int = b + 4.5;] *)
Definition prog_int_from_float : Program := mkProgram [
  SVar (mkVar 1 1 "b" (mkTypename 2 1 "float")
          (Some (Literal 3 1 (PyFloat 3.14%float))));
  SVar (mkVar 4 2 "e" (mkTypename 5 2 "int")
          (Some (Binop 6 2 "+"
                   (LoadLocation 7 2 (mkLocation 8 2 "b"))
                   (Literal 9 2 (PyFloat 4.5%float))))) ].

(** [const x = 1; x = 2;] *)
Definition const_x : ConstDeclaration := mkConst 1 1 "x" (Literal 2 1 (PyInt 1)).

Definition assign_x_2 : AssignmentStatement :=
  mkAssign 2 (mkLocation 3 2 "x") (Literal 4 2 (PyInt 2)).

Definition prog_assign_const : Program := mkProgram [
  SConst const_x; SAssign assign_x_2 ].

(** [x = - - y;] on line 2 *)
Definition assign_x_neg_neg_y : AssignmentStatement :=
  mkAssign 2 (mkLocation 3 2 "x")
    (Unaryop 4 2 "-" (Unaryop 5 2 "-" (LoadLocation 6 2 (mkLocation 7 2 "y")))).

(** [const x = 1; x = - - y;] *)
Definition prog_assign_const_undefined : Program := mkProgram [
  SConst const_x; SAssign assign_x_neg_neg_y ].

(** [var a int; var a int;] *)
Definition var_a : VarDeclaration := mkVar 1 1 "a" (mkTypename 2 1 "int") None.

Definition var_a_again : VarDeclaration := mkVar 3 2 "a" (mkTypename 4 2 "int") None.

Definition prog_redeclared_var : Program := mkProgram [
  SVar var_a; SVar var_a_again ].

(** A literal whose value is Python's [None]. *)
Definition none_literal : expr := Literal 2 1 PyNone.

(** [const c = <None>; const d = c;] where the first initializer is a
    Literal node holding [None]. *)
Definition const_c : ConstDeclaration := mkConst 1 1 "c" none_literal.

Definition load_c : expr := LoadLocation 4 2 (mkLocation 5 2 "c").

Definition prog_untyped_const : Program := mkProgram [
  SConst const_c; SConst (mkConst 3 2 "d" load_c) ].

(** [const c = y + 1; const d = c;] with [y] undeclared *)
Definition prog_untyped_const_parsed : Program := mkProgram [
  SConst (mkConst 1 1 "c"
            (Binop 2 1 "+" (LoadLocation 3 1 (mkLocation 4 1 "y"))
                           (Literal 5 1 (PyInt 1))));
  SConst (mkConst 6 2 "d" (LoadLocation 7 2 (mkLocation 8 2 "c"))) ].

(** [1 < 2.5], [true < false] and ["Hello" * "World"] *)
Definition rel_int_float : expr :=
  Relop 3 1 "<" (Literal 1 1 (PyInt 1)) (Literal 2 1 (PyFloat 2.5%float)).

Definition rel_bool_bool : expr :=
  Relop 3 1 "<" (Literal 1 1 (PyBool true)) (Literal 2 1 (PyBool false)).

Definition mul_str_str : expr :=
  Binop 3 1 "*" (Literal 1 1 (PyStr "Hello")) (Literal 2 1 (PyStr "World")).

(** A second [const x = 2;] and a [var x float;], on lines 3 and 4 *)
Definition const_x_again : ConstDeclaration :=
  mkConst 5 3 "x" (Literal 6 3 (PyInt 2)).

Definition var_x_again : VarDeclaration :=
  mkVar 7 4 "x" (mkTypename 8 4 "float") None.

(** Nodes for the examples of the rules: [a = 3;], [a = "x";], a load of
    the undeclared [y], [const a = a;], [var a int = a;], [var a foo;] and
    [var e int = 4.5;] *)
Definition assign_a_3 : AssignmentStatement :=
  mkAssign 1 (mkLocation 1 1 "a") (Literal 2 1 (PyInt 3)).

Definition assign_a_str : AssignmentStatement :=
  mkAssign 2 (mkLocation 5 2 "a") (Literal 6 2 (PyStr "x")).

Definition load_y : expr := LoadLocation 1 1 (mkLocation 2 1 "y").

Definition const_a_self : ConstDeclaration :=
  mkConst 1 1 "a" (LoadLocation 2 1 (mkLocation 3 1 "a")).

Definition var_a_self : VarDeclaration :=
  mkVar 1 1 "a" (mkTypename 2 1 "int")
    (Some (LoadLocation 3 1 (mkLocation 4 1 "a"))).

Definition var_a_foo : VarDeclaration :=
  mkVar 1 1 "a" (mkTypename 2 1 "foo") None.

Definition var_e_float : VarDeclaration :=
  mkVar 1 1 "e" (mkTypename 2 1 "int") (Some (Literal 3 1 (PyFloat 4.5%float))).

(** The states reached once [var a int;], respectively the program
    [a = 3;], has been checked by a fresh visitor. *)
Definition after_var_a : state :=
  final_state (visit_VarDeclaration comparison_ops var_a init_state).

Definition after_assign_a : state :=
  final_state (visit_Program comparison_ops (mkProgram [SAssign assign_a_3])
                 init_state).

(** ** Specification vocabulary

    [extends s s']: [s'] has the symbol table and the installed initializers
    of [s], and its diagnostics continue those of [s]. *)
Definition extends (s s' : state) : Prop :=
  symtab s' = symtab s ∧ inits s' = inits s
  ∧ ∃ l, errors s' = (errors s ++ l)%list.

Definition frames {A} (m : M A) : Prop :=
  ∀ s, extends s (final_state (m s)).


(** [grows s s']: every name bound in [s] is bound in [s'], every node that
    has a [check_type] attribute or an installed initializer in [s] has one
    in [s'], and the diagnostics of [s'] continue those of [s]. *)
Definition grows (s s' : state) : Prop :=
  (∀ name, is_Some (symtab s !! name) → is_Some (symtab s' !! name))
  ∧ (∀ o, is_Some (types s !! o) → is_Some (types s' !! o))
  ∧ (∀ o, is_Some (inits s !! o) → is_Some (inits s' !! o))
  ∧ ∃ l, errors s' = (errors s ++ l)%list.

Definition keeps {A} (m : M A) : Prop :=
  ∀ s, grows s (final_state (m s)).

(** ** Reasoning about the monad *)

Lemma bind_ok {A B} (m : M A) (f : A → M B) s a s' :
  m s = Ok a s' → (m ≫= f) s = f a s'.
Proof. intros H. unfold mbind, M_bind. now rewrite H. Qed.

Lemma bind_raise {A B} (m : M A) (f : A → M B) s e s' :
  m s = Raise e s' → (m ≫= f) s = Raise e s'.
Proof. intros H. unfold mbind, M_bind. now rewrite H. Qed.

Lemma hasattr_present o v s :
  types s !! o = Some v → hasattr_check_type o s = Ok true s.
Proof.
  intros H. unfold hasattr_check_type.
  rewrite bool_decide_eq_true_2; [reflexivity | now rewrite H].
Qed.

Lemma get_present cls o v s :
  types s !! o = Some v → get_check_type cls o s = Ok v s.
Proof. intros H. unfold get_check_type. now rewrite H. Qed.

Lemma op_in_false op ops : op ∉ ops → op_in op ops = false.
Proof. intros H. unfold op_in. now apply bool_decide_eq_false_2. Qed.

Ltac mstep :=
  first
    [ erewrite (bind_ok (hasattr_check_type _)) by (eapply hasattr_present; eassumption)
    | erewrite (bind_ok (get_check_type _ _)) by (eapply get_present; eassumption)
    | erewrite bind_ok by eassumption
    | erewrite bind_ok by reflexivity ].

(** ** Properties of the rules *)

Ltac mrun := unfold mbind, M_bind, mret, M_ret, of_type, raise, error; simpl.

(** ** What a visit leaves alone *)

Lemma extends_refl s : extends s s.
Proof. repeat split. exists []. now rewrite app_nil_r. Qed.

Lemma extends_trans s1 s2 s3 : extends s1 s2 → extends s2 s3 → extends s1 s3.
Proof.
  intros (Ha & Hb & l1 & Hc) (Ha' & Hb' & l2 & Hc').
  repeat split; [congruence | congruence |].
  exists (l1 ++ l2)%list. rewrite Hc', Hc. now rewrite app_assoc.
Qed.

Lemma frames_ret {A} (a : A) : frames (mret a).
Proof. intros s. apply extends_refl. Qed.

Lemma frames_raise {A} e : frames (@raise A e).
Proof. intros s. apply extends_refl. Qed.

Lemma frames_bind {A B} (m : M A) (f : A → M B) :
  frames m → (∀ a, frames (f a)) → frames (m ≫= f).
Proof.
  intros Hm Hf s. unfold mbind, M_bind.
  specialize (Hm s). destruct (m s) as [a s'|e s']; simpl in *.
  - eapply extends_trans; [exact Hm | apply Hf].
  - exact Hm.
Qed.

Lemma frames_error lineno msg : frames (error lineno msg).
Proof. intros s. repeat split. now eexists. Qed.

Lemma frames_lookup name : frames (lookup name).
Proof. intros s. apply extends_refl. Qed.

Lemma frames_hasattr o : frames (hasattr_check_type o).
Proof. intros s. apply extends_refl. Qed.

Lemma frames_get cls o : frames (get_check_type cls o).
Proof.
  intros s. unfold get_check_type. destruct (types s !! o); apply extends_refl.
Qed.

Lemma frames_set o v : frames (set_check_type o v).
Proof. intros s. repeat split. exists []. simpl. now rewrite app_nil_r. Qed.

Lemma frames_of_type attr t : frames (of_type attr t).
Proof. destruct t; [apply frames_ret | apply frames_raise]. Qed.

Lemma frames_sym_check_type sym : frames (sym_check_type sym).
Proof. destruct sym; simpl; first [apply frames_raise | apply frames_get]. Qed.

Create HintDb frames.
#[export] Hint Resolve frames_ret frames_raise frames_error frames_lookup
  frames_hasattr frames_get frames_set frames_of_type frames_sym_check_type
  : frames.

Ltac frame :=
  repeat first
    [ solve [auto with frames]
    | apply frames_bind; [|intros]
    | match goal with
      | |- frames (if ?b then _ else _) => destruct b
      | |- frames (match ?x with _ => _ end) => destruct x
      end ].

Lemma frames_check_type_unary lineno op val :
  frames (check_type_unary lineno op val).
Proof. unfold check_type_unary. frame. Qed.

Lemma frames_check_type_binary lineno op l r :
  frames (check_type_binary lineno op l r).
Proof. unfold check_type_binary. frame. Qed.

Lemma frames_visit_Literal o lineno value : frames (visit_Literal o lineno value).
Proof. unfold visit_Literal. simpl. frame. Qed.

Lemma frames_visit_LoadLocation o lineno location :
  frames (visit_LoadLocation o lineno location).
Proof. unfold visit_LoadLocation. frame. Qed.

#[export] Hint Resolve frames_check_type_unary frames_check_type_binary
  frames_visit_Literal frames_visit_LoadLocation : frames.

Section Properties.

Variable rel_ops : ExprType → list string.

(** What [check_type_rel] answers when both operands carry a type. *)
Lemma check_type_rel_typed lineno op l r tl tr s :
  types s !! expr_oid l = Some (Some tl) →
  types s !! expr_oid r = Some (Some tr) →
  check_type_rel rel_ops lineno op l r s =
    if decide (tl = tr) then
      if op_in op (rel_ops tl) then Ok (Some BoolType) s
      else Ok (Some BoolType) (report s lineno (RelNotSupported op "RHS"))
    else Ok (Some tl) (report s lineno (RelMismatch op)).
Proof.
  intros Hl Hr. unfold check_type_rel.
  repeat mstep. simpl.
  repeat mstep.
  destruct (decide (tl = tr)) as [->|Hne].
  - rewrite bool_decide_eq_false_2 by (intros H; now apply H).
    mrun. destruct (op_in op (rel_ops tr)); reflexivity.
  - rewrite bool_decide_eq_true_2 by congruence. reflexivity.
Qed.

(** What [check_type_binary] answers when both operands carry a type. *)
Lemma check_type_binary_typed lineno op l r tl tr s :
  types s !! expr_oid l = Some (Some tl) →
  types s !! expr_oid r = Some (Some tr) →
  check_type_binary lineno op l r s =
    if decide (tl = tr) then
      if op_in op (binary_ops tl) then Ok (Some tl) s
      else Ok (Some tl) (report s lineno (BinaryNotSupported op "RHS"))
    else Ok (Some tl) (report s lineno (BinaryMismatch op)).
Proof.
  intros Hl Hr. unfold check_type_binary.
  repeat mstep. simpl.
  repeat mstep.
  destruct (decide (tl = tr)) as [->|Hne].
  - rewrite bool_decide_eq_false_2 by (intros H; now apply H).
    mrun. destruct (op_in op (binary_ops tr)); reflexivity.
  - rewrite bool_decide_eq_true_2 by congruence. reflexivity.
Qed.

Lemma frames_check_type_rel lineno op l r :
  frames (check_type_rel rel_ops lineno op l r).
Proof. unfold check_type_rel. frame. Qed.

(** Visiting an expression never touches the symbol table. *)
Lemma frames_visit_expr e : frames (visit_expr rel_ops e).
Proof.
  induction e; simpl; frame; apply frames_check_type_rel.
Qed.

(** C5. A Relational-op node whose operands both carry a type after being
    visited: when the two types differ the node gets the left operand's
    type (with the mismatch diagnostic), and when they agree but the
    operator is not among the type's relational operators an error is
    reported and the node gets [BoolType]. *)
Theorem visit_Relop_result o lineno op l r tl tr s s1 s2 :
  visit_expr rel_ops l s = Ok tt s1 →
  visit_expr rel_ops r s1 = Ok tt s2 →
  types s2 !! expr_oid l = Some (Some tl) →
  types s2 !! expr_oid r = Some (Some tr) →
  (tl ≠ tr →
     visit_expr rel_ops (Relop o lineno op l r) s =
       Ok tt (attach (report s2 lineno (RelMismatch op)) o (Some tl))) ∧
  (tl = tr → op ∉ rel_ops tl →
     visit_expr rel_ops (Relop o lineno op l r) s =
       Ok tt (attach (report s2 lineno (RelNotSupported op "RHS")) o
                (Some BoolType))).
Proof.
  intros Hvl Hvr Hl Hr. simpl.
  rewrite (bind_ok _ _ _ _ _ Hvl), (bind_ok _ _ _ _ _ Hvr).
  unfold mbind, M_bind.
  rewrite (check_type_rel_typed lineno op l r tl tr s2 Hl Hr).
  split.
  - intros Hne. now rewrite decide_False by assumption.
  - intros Heq Hop. rewrite decide_True by assumption.
    now rewrite (op_in_false _ _ Hop).
Qed.

(** C6. A Binary-op node whose operands carry equal types after being
    visited, with an operator that neither type supports: exactly one
    diagnostic is added, it names the RHS, and the node still gets the left
    operand's type. *)
Theorem visit_Binop_unsupported o lineno op l r tl tr s s1 s2 :
  visit_expr rel_ops l s = Ok tt s1 →
  visit_expr rel_ops r s1 = Ok tt s2 →
  types s2 !! expr_oid l = Some (Some tl) →
  types s2 !! expr_oid r = Some (Some tr) →
  tl = tr → op ∉ binary_ops tl → op ∉ binary_ops tr →
  ∃ s', visit_expr rel_ops (Binop o lineno op l r) s = Ok tt s'
    ∧ errors s' = (errors s2 ++ [(lineno, BinaryNotSupported op "RHS")])%list
    ∧ types s' !! o = Some (Some tl)
    ∧ s' = attach (report s2 lineno (BinaryNotSupported op "RHS")) o (Some tl).
Proof.
  intros Hvl Hvr Hl Hr Heq Hopl Hopr. simpl.
  rewrite (bind_ok _ _ _ _ _ Hvl), (bind_ok _ _ _ _ _ Hvr).
  unfold mbind, M_bind.
  rewrite (check_type_binary_typed lineno op l r tl tr s2 Hl Hr).
  rewrite decide_True by assumption.
  rewrite (op_in_false _ _ Hopl).
  eexists. split; [reflexivity|].
  repeat split. simpl. apply lookup_insert_eq.
Qed.

(** C1. A Location whose name is not bound: [visit_Location] reports
    "name not found" and then raises an AttributeError, because it goes on
    to read [check_type] off the [None] the lookup returned. *)
Theorem visit_Location_unbound_raises (node : Location) (s : state) :
  symtab s !! loc_name node = None →
  visit_Location node s =
    Raise (AttributeError "NoneType" "check_type")
          (report s (loc_lineno node) (NameNotFound (loc_name node))).
Proof.
  intros H. unfold visit_Location, lookup. mrun. now rewrite H.
Qed.

(** C4 (amended). A Literal whose value kind is outside the type map:
    [visit_Literal] reports "unrecognized type" and sets the node's
    [check_type] attribute to [None]; the attribute is present and holds
    no type. *)
Theorem visit_Literal_unrecognized o lineno value s :
  typemap (type_of value) = None →
  ∃ s', visit_Literal o lineno value s = Ok tt s'
    ∧ errors s' = (errors s ++ [(lineno, UnrecognizedType (type_of value))])%list
    ∧ types s' !! o = Some None
    ∧ symtab s' = symtab s.
Proof.
  intros H. unfold visit_Literal. rewrite H. mrun.
  eexists. split; [reflexivity|]. repeat split. simpl. apply lookup_insert_eq.
Qed.

(** C7. Redeclaration is asymmetric.  A Constant Declaration whose name is
    already bound reports the redefinition and rebinds the name to the new
    declaration, whatever happens while its initializer is visited.  A
    Variable Declaration whose name is already bound reports the
    redefinition and stops: symbol table and attributes are as before. *)
Theorem redeclaration_asymmetric (c : ConstDeclaration) (v : VarDeclaration) s :
  is_Some (symtab s !! cd_name c) →
  is_Some (symtab s !! vd_name v) →
  (∃ rest, errors (final_state (visit_ConstDeclaration rel_ops c s)) =
             (errors s ++ (cd_lineno c, RedefineConst (cd_name c)) :: rest)%list)
  ∧ symtab (final_state (visit_ConstDeclaration rel_ops c s)) !! cd_name c
    = Some (SymConst c)
  ∧ ∃ s', visit_VarDeclaration rel_ops v s = Ok tt s'
      ∧ errors s' = (errors s ++ [(vd_lineno v, RedefineVar (vd_name v))])%list
      ∧ symtab s' = symtab s ∧ types s' = types s ∧ inits s' = inits s.
Proof.
  intros [sc Hc] [sv Hv].
  assert (Hrest : frames (visit_expr rel_ops (cd_expr c);;
            check_type ← get_check_type "expr" (expr_oid (cd_expr c));
            set_check_type (cd_oid c) check_type)).
  { frame. apply frames_visit_expr. }
  set (s0 := bind_name (report s (cd_lineno c) (RedefineConst (cd_name c)))
               (cd_name c) (SymConst c)).
  assert (Hrun : visit_ConstDeclaration rel_ops c s =
            (visit_expr rel_ops (cd_expr c);;
             check_type ← get_check_type "expr" (expr_oid (cd_expr c));
             set_check_type (cd_oid c) check_type) s0).
  { unfold visit_ConstDeclaration, lookup, add.
    unfold mbind at 1 2 3, M_bind at 1 2 3. rewrite Hc. reflexivity. }
  rewrite Hrun. destruct (Hrest s0) as (Hsym & _ & l & Herr).
  split; [|split].
  - exists l. rewrite Herr. simpl. now rewrite <- app_assoc.
  - rewrite Hsym. apply lookup_insert_eq.
  - eexists. split.
    + unfold visit_VarDeclaration, lookup. mrun. rewrite Hv. reflexivity.
    + now repeat split.
Qed.

(** The constant rule of [visit_AssignmentStatement]: the source expression
    is visited first; an exception there ends the statement, otherwise
    "cannot assign to constant" is reported and nothing else is checked. *)
Lemma assign_to_constant_rule (node : AssignmentStatement) d s :
  symtab s !! loc_name (as_location node) = Some (SymConst d) →
  visit_AssignmentStatement rel_ops node s =
    match visit_expr rel_ops (as_expr node) s with
    | Ok _ s1 => Ok tt (report s1 (as_lineno node) (CannotAssignConst (cd_name d)))
    | Raise e s1 => Raise e s1
    end.
Proof.
  intros Hsym. unfold visit_AssignmentStatement, lookup.
  unfold mbind at 1 2, M_bind at 1 2. rewrite Hsym. simpl.
  unfold mbind, M_bind.
  now destruct (visit_expr rel_ops (as_expr node) s) as [[] s1|e s1].
Qed.

(** C8. Checking [const x = 1; x = 2;] reports exactly one "cannot assign to
    constant" error.  But in [const x = 1; x = - - y;] the target resolves
    to the constant as well, and checking the assignment raises an
    AttributeError while its source is visited (the inner negation got
    [None] as type): "cannot assign to constant" is never reported. *)
Theorem assign_to_constant_source_raises :
  let s := final_state (visit_ConstDeclaration rel_ops const_x init_state) in
  (returns (check_program rel_ops prog_assign_const) = true
   ∧ errors (final_state (check_program rel_ops prog_assign_const)) =
       [(2, CannotAssignConst "x")])
  ∧ symtab s !! loc_name (as_location assign_x_neg_neg_y) = Some (SymConst const_x)
  ∧ (∃ s', visit_AssignmentStatement rel_ops assign_x_neg_neg_y s =
             Raise (AttributeError "NoneType" "unary_ops") s'
           ∧ errors s' = [(2, NameNotFound "y")])
  ∧ ∃ s', check_program rel_ops prog_assign_const_undefined =
            Raise (AttributeError "NoneType" "unary_ops") s'
          ∧ errors s' = [(2, NameNotFound "y")].
Proof.
  intros s. repeat split; try (vm_compute; reflexivity);
    vm_compute; eexists; split; reflexivity.
Qed.

(** C9 (amended). A Variable Declaration without initializer, whose name is
    not bound yet and whose type name resolves to a built-in type: after
    the visit the declaration carries a synthesized Literal holding the
    type's default value, with the declared type attached to the Literal
    and to the declaration. *)
Theorem visit_VarDeclaration_default (node : VarDeclaration) t s :
  vd_expr node = None →
  symtab s !! vd_name node = None →
  symtab s !! tn_name (vd_typename node) = Some (SymType t) →
  ∃ s', visit_VarDeclaration rel_ops node s = Ok tt s'
    ∧ inits s' !! vd_oid node = Some (mkDefault (default t) (Some t))
    ∧ types s' !! vd_oid node = Some (Some t)
    ∧ errors s' = errors s.
Proof.
  intros Hexpr Hname Htn.
  assert (Hne : vd_name node ≠ tn_name (vd_typename node)) by congruence.
  unfold visit_VarDeclaration, visit_Typename, lookup, add, hasattr_check_type,
    get_check_type, set_check_type, set_default_expr.
  rewrite Hexpr. mrun. rewrite Hname.
  rewrite lookup_insert_ne by assumption. rewrite Htn. simpl.
  rewrite bool_decide_eq_true_2 by (rewrite lookup_insert_eq; eauto).
  unfold attach at 1; simpl. rewrite lookup_insert_eq.
  unfold attach at 1; simpl. rewrite lookup_insert_eq. mrun.
  eexists. split; [reflexivity|]. simpl.
  rewrite !lookup_insert_eq. now repeat split.
Qed.

(** A Load-Location whose name resolves to a node with [check_type] set to
    [None] raises the NameError of the unbound [valtype]. *)
Lemma visit_LoadLocation_untyped o lineno location sym s :
  symtab s !! loc_name location = Some sym →
  (∀ t, sym ≠ SymType t) →
  sym_check_type sym s = Ok None s →
  visit_LoadLocation o lineno location s = Raise (NameError "valtype") s.
Proof.
  intros Hsym Hnt Hct. unfold visit_LoadLocation, lookup.
  unfold mbind at 1, M_bind at 1. rewrite Hsym.
  destruct sym as [t| | |]; [now destruct (Hnt t) | | |];
    unfold mbind, M_bind; now rewrite Hct.
Qed.

(** C10. A reachable crash: after [const c = <None>] has been checked, [c]
    resolves to a declaration whose [check_type] is [None]; visiting a
    Load-Location of [c] then raises a NameError for [valtype] instead of
    reporting, and so does the pass over [const c = <None>; const d = c;]. *)
Theorem load_untyped_constant_raises :
  let s1 := final_state (visit_ConstDeclaration rel_ops const_c init_state) in
  returns (visit_ConstDeclaration rel_ops const_c init_state) = true
  ∧ symtab s1 !! "c" = Some (SymConst const_c)
  ∧ types s1 !! cd_oid const_c = Some None
  ∧ visit_expr rel_ops load_c s1 = Raise (NameError "valtype") s1
  ∧ ∃ s, check_program rel_ops prog_untyped_const = Raise (NameError "valtype") s
       ∧ errors s = [(1, UnrecognizedType PyNoneT)].
Proof.
  repeat split; try (vm_compute; reflexivity).
  vm_compute. eexists. split; reflexivity.
Qed.

(** C2 (amended). Checking [a = 3; var a int;] reports exactly one "not
    defined" error for the assignment, followed by one redefinition error
    for the declaration: the assignment has bound [a] by then. *)
Theorem use_before_declaration :
  returns (check_program rel_ops prog_use_before_decl) = true
  ∧ errors (final_state (check_program rel_ops prog_use_before_decl)) =
      [(1, NameNotDefined "a"); (2, RedefineVar "a")].
Proof. split; vm_compute; reflexivity. Qed.

(** C3. Checking [var a int = 2; var b float = 3.14; var d int = a + b;]
    reports exactly one "matching LHS/RHS types" error; checking
    [var b float = 3.14; var e int = b + 4.5;] reports nothing at all: the
    declared type is never compared with the initializer's type. *)
Theorem initializer_type_unchecked :
  (returns (check_program rel_ops prog_int_plus_float) = true
   ∧ errors (final_state (check_program rel_ops prog_int_plus_float)) =
       [(3, BinaryMismatch "+")])
  ∧ returns (check_program rel_ops prog_int_from_float) = true
  ∧ errors (final_state (check_program rel_ops prog_int_from_float)) = []
  ∧ types (final_state (check_program rel_ops prog_int_from_float)) !! 4
      = Some (Some IntType)
  ∧ types (final_state (check_program rel_ops prog_int_from_float)) !! 6
      = Some (Some FloatType).
Proof. repeat split; vm_compute; reflexivity. Qed.

End Properties.

(** ** The rules at work on the examples *)

Lemma not_in_ops op ops : op_in op ops = false → op ∉ ops.
Proof. unfold op_in. apply bool_decide_eq_false_1. Qed.

(** C1 at [a] in the fresh state. *)
Lemma visit_Location_unbound_raises_witness :
  symtab init_state !! "a" = None
  ∧ visit_Location (mkLocation 1 1 "a") init_state =
      Raise (AttributeError "NoneType" "check_type")
            (report init_state 1 (NameNotFound "a")).
Proof.
  split; [reflexivity|].
  apply (visit_Location_unbound_raises (mkLocation 1 1 "a") init_state).
  reflexivity.
Defined.

(** C4 at a Literal holding [None]. *)
Lemma visit_Literal_unrecognized_witness :
  typemap (type_of PyNone) = None
  ∧ ∃ s', visit_Literal 2 1 PyNone init_state = Ok tt s'
      ∧ errors s' = (errors init_state ++ [(1, UnrecognizedType (type_of PyNone))])%list
      ∧ types s' !! 2 = Some None
      ∧ symtab s' = symtab init_state.
Proof.
  split; [reflexivity|].
  apply (visit_Literal_unrecognized 2 1 PyNone init_state). reflexivity.
Defined.

(** C4 as stated fails: after the visit the attribute is present, and the
    unary rule applied to the node raises instead of skipping its check. *)
Lemma visit_Literal_unrecognized_counterexample :
  typemap (type_of PyNone) = None
  ∧ types (final_state (visit_Literal 2 1 PyNone init_state)) !! 2 ≠ None
  ∧ hasattr_check_type 2 (final_state (visit_Literal 2 1 PyNone init_state))
    = Ok true (final_state (visit_Literal 2 1 PyNone init_state))
  ∧ returns (visit_expr comparison_ops (Unaryop 9 1 "-" none_literal) init_state)
    = false.
Proof.
  split; [reflexivity|]. split; [|split].
  - vm_compute. discriminate.
  - vm_compute. reflexivity.
  - vm_compute. reflexivity.
Qed.

(** C5 at [1 < 2.5] (types differ) and at [true < false] (the operator is
    not among the relational operators of [bool] in [comparison_ops]). *)
Lemma visit_Relop_result_witness :
  (IntType ≠ FloatType
   ∧ visit_expr comparison_ops rel_int_float init_state =
       Ok tt (attach (report
                (final_state (visit_expr comparison_ops (Literal 2 1 (PyFloat 2.5%float))
                   (final_state (visit_expr comparison_ops (Literal 1 1 (PyInt 1))
                                   init_state))))
                1 (RelMismatch "<")) 3 (Some IntType)))
  ∧ (("<" ∉ comparison_ops BoolType)
     ∧ visit_expr comparison_ops rel_bool_bool init_state =
         Ok tt (attach (report
                  (final_state (visit_expr comparison_ops (Literal 2 1 (PyBool false))
                     (final_state (visit_expr comparison_ops (Literal 1 1 (PyBool true))
                                     init_state))))
                  1 (RelNotSupported "<" "RHS")) 3 (Some BoolType))).
Proof.
  split.
  - split; [discriminate|].
    apply (visit_Relop_result comparison_ops 3 1 "<"
             (Literal 1 1 (PyInt 1)) (Literal 2 1 (PyFloat 2.5%float))
             IntType FloatType init_state
             (final_state (visit_expr comparison_ops (Literal 1 1 (PyInt 1)) init_state))
             (final_state (visit_expr comparison_ops (Literal 2 1 (PyFloat 2.5%float))
                (final_state (visit_expr comparison_ops (Literal 1 1 (PyInt 1))
                                init_state)))));
      [reflexivity | reflexivity | reflexivity | reflexivity | discriminate].
  - assert (Hop : "<" ∉ comparison_ops BoolType)
      by (apply not_in_ops; reflexivity).
    split; [exact Hop|].
    apply (visit_Relop_result comparison_ops 3 1 "<"
             (Literal 1 1 (PyBool true)) (Literal 2 1 (PyBool false))
             BoolType BoolType init_state
             (final_state (visit_expr comparison_ops (Literal 1 1 (PyBool true)) init_state))
             (final_state (visit_expr comparison_ops (Literal 2 1 (PyBool false))
                (final_state (visit_expr comparison_ops (Literal 1 1 (PyBool true))
                                init_state)))));
      [reflexivity | reflexivity | reflexivity | reflexivity | reflexivity | exact Hop].
Defined.

(** C6 at ["Hello" * "World"]. *)
Lemma visit_Binop_unsupported_witness :
  ("*" ∉ binary_ops StringType)
  ∧ ∃ s', visit_expr comparison_ops mul_str_str init_state = Ok tt s'
      ∧ errors s' =
          (errors (final_state (visit_expr comparison_ops (Literal 2 1 (PyStr "World"))
                     (final_state (visit_expr comparison_ops (Literal 1 1 (PyStr "Hello"))
                                     init_state))))
           ++ [(1, BinaryNotSupported "*" "RHS")])%list
      ∧ types s' !! 3 = Some (Some StringType)
      ∧ s' = attach (report
               (final_state (visit_expr comparison_ops (Literal 2 1 (PyStr "World"))
                  (final_state (visit_expr comparison_ops (Literal 1 1 (PyStr "Hello"))
                                  init_state))))
               1 (BinaryNotSupported "*" "RHS")) 3 (Some StringType).
Proof.
  assert (Hop : "*" ∉ binary_ops StringType) by (apply not_in_ops; reflexivity).
  split; [exact Hop|].
  apply (visit_Binop_unsupported comparison_ops 3 1 "*"
           (Literal 1 1 (PyStr "Hello")) (Literal 2 1 (PyStr "World"))
           StringType StringType init_state
           (final_state (visit_expr comparison_ops (Literal 1 1 (PyStr "Hello")) init_state)));
    [reflexivity | reflexivity | reflexivity | reflexivity | reflexivity
    | exact Hop | exact Hop].
Defined.

(** The state reached once [const x = 1;] has been checked. *)
Lemma after_const_x :
  symtab (final_state (visit_ConstDeclaration comparison_ops const_x init_state))
    !! "x" = Some (SymConst const_x).
Proof. reflexivity. Qed.

(** C7 at a second [const x] and a [var x] met after [const x = 1;]. *)
Lemma redeclaration_asymmetric_witness :
  let s := final_state (visit_ConstDeclaration comparison_ops const_x init_state) in
  is_Some (symtab s !! "x")
  ∧ (∃ rest, errors (final_state (visit_ConstDeclaration comparison_ops const_x_again s)) =
               (errors s ++ (3, RedefineConst "x") :: rest)%list)
  ∧ symtab (final_state (visit_ConstDeclaration comparison_ops const_x_again s)) !! "x"
    = Some (SymConst const_x_again)
  ∧ ∃ s', visit_VarDeclaration comparison_ops var_x_again s = Ok tt s'
      ∧ errors s' = (errors s ++ [(4, RedefineVar "x")])%list
      ∧ symtab s' = symtab s ∧ types s' = types s ∧ inits s' = inits s.
Proof.
  intros s.
  assert (Hx : is_Some (symtab s !! "x")) by (exists (SymConst const_x); reflexivity).
  split; [exact Hx|].
  exact (redeclaration_asymmetric comparison_ops const_x_again var_x_again s Hx Hx).
Defined.

(** The constant rule at [x = 2;] met after [const x = 1;]. *)
Lemma assign_to_constant_example :
  visit_AssignmentStatement comparison_ops assign_x_2
    (final_state (visit_ConstDeclaration comparison_ops const_x init_state)) =
  Ok tt (report
           (final_state (visit_expr comparison_ops (as_expr assign_x_2)
              (final_state (visit_ConstDeclaration comparison_ops const_x init_state))))
           2 (CannotAssignConst "x")).
Proof.
  now rewrite (assign_to_constant_rule comparison_ops assign_x_2 const_x).
Qed.

(** C9 at [var a int;] in the fresh state. *)
Lemma visit_VarDeclaration_default_witness :
  vd_expr var_a = None
  ∧ symtab init_state !! "a" = None
  ∧ symtab init_state !! "int" = Some (SymType IntType)
  ∧ ∃ s', visit_VarDeclaration comparison_ops var_a init_state = Ok tt s'
      ∧ inits s' !! 1 = Some (mkDefault (PyInt 0) (Some IntType))
      ∧ types s' !! 1 = Some (Some IntType)
      ∧ errors s' = errors init_state.
Proof.
  repeat (split; [reflexivity|]).
  apply (visit_VarDeclaration_default comparison_ops var_a IntType init_state);
    reflexivity.
Defined.

(** C9 as stated fails on [var a int; var a int;]: the second declaration
    has no initializer and still has none after the pass, which returned. *)
Lemma visit_VarDeclaration_default_counterexample :
  vd_expr var_a_again = None
  ∧ returns (check_program comparison_ops prog_redeclared_var) = true
  ∧ inits (final_state (check_program comparison_ops prog_redeclared_var))
      !! vd_oid var_a_again = None
  ∧ types (final_state (check_program comparison_ops prog_redeclared_var))
      !! vd_oid var_a_again = None.
Proof. repeat split; vm_compute; reflexivity. Qed.

(** C2 as stated fails: the diagnostics of [a = 3; var a int;] are not a
    single "not defined" error, a second diagnostic follows it. *)
Lemma use_before_declaration_counterexample :
  (¬ ∃ lineno, errors (final_state (check_program comparison_ops prog_use_before_decl))
               = [(lineno, NameNotDefined "a")])
  ∧ length (errors (final_state (check_program comparison_ops prog_use_before_decl))) = 2.
Proof.
  split; [|vm_compute; reflexivity].
  intros [lineno H]. vm_compute in H. discriminate H.
Qed.

(** The same crash on a program the parser can produce:
    [const c = y + 1; const d = c;] with [y] undeclared. *)
Lemma load_untyped_constant_parsed :
  ∃ s, check_program comparison_ops prog_untyped_const_parsed =
         Raise (NameError "valtype") s
       ∧ errors s = [(1, NameNotFound "y")].
Proof. vm_compute. eexists. split; reflexivity. Qed.

(** ** Further properties of the symbol table and the rules *)

Lemma grows_refl s : grows s s.
Proof. repeat split; auto. exists []. now rewrite app_nil_r. Qed.

Lemma grows_trans s1 s2 s3 : grows s1 s2 → grows s2 s3 → grows s1 s3.
Proof.
  intros (Ha & Hb & Hc & l1 & Hd) (Ha' & Hb' & Hc' & l2 & Hd').
  repeat split; auto.
  exists (l1 ++ l2)%list. rewrite Hd', Hd. now rewrite app_assoc.
Qed.

Lemma keeps_ret {A} (a : A) : keeps (mret a).
Proof. intros s. apply grows_refl. Qed.

Lemma keeps_raise {A} e : keeps (@raise A e).
Proof. intros s. apply grows_refl. Qed.

Lemma keeps_bind {A B} (m : M A) (f : A → M B) :
  keeps m → (∀ a, keeps (f a)) → keeps (m ≫= f).
Proof.
  intros Hm Hf s. unfold mbind, M_bind.
  specialize (Hm s). destruct (m s) as [a s'|e s']; simpl in *.
  - eapply grows_trans; [exact Hm | apply Hf].
  - exact Hm.
Qed.

Lemma keeps_error lineno msg : keeps (error lineno msg).
Proof. intros s. repeat split; auto. now eexists. Qed.

Lemma keeps_lookup name : keeps (lookup name).
Proof. intros s. apply grows_refl. Qed.

Lemma keeps_hasattr o : keeps (hasattr_check_type o).
Proof. intros s. apply grows_refl. Qed.

Lemma keeps_get cls o : keeps (get_check_type cls o).
Proof.
  intros s. unfold get_check_type. destruct (types s !! o); apply grows_refl.
Qed.

Lemma keeps_set o v : keeps (set_check_type o v).
Proof.
  intros s. repeat split; auto; simpl.
  - intros o' H. destruct (decide (o = o')) as [->|Hne].
    + rewrite lookup_insert_eq. eauto.
    + now rewrite lookup_insert_ne.
  - exists []. now rewrite app_nil_r.
Qed.

Lemma keeps_add name value : keeps (add name value).
Proof.
  intros s. repeat split; auto; simpl.
  - intros n H. destruct (decide (name = n)) as [->|Hne].
    + rewrite lookup_insert_eq. eauto.
    + now rewrite lookup_insert_ne.
  - exists []. now rewrite app_nil_r.
Qed.

Lemma keeps_set_default o l : keeps (set_default_expr o l).
Proof.
  intros s. repeat split; auto; simpl.
  - intros o' H. destruct (decide (o = o')) as [->|Hne].
    + rewrite lookup_insert_eq. eauto.
    + now rewrite lookup_insert_ne.
  - exists []. now rewrite app_nil_r.
Qed.

Lemma keeps_of_type attr t : keeps (of_type attr t).
Proof. destruct t; [apply keeps_ret | apply keeps_raise]. Qed.

Lemma keeps_sym_check_type sym : keeps (sym_check_type sym).
Proof. destruct sym; simpl; first [apply keeps_raise | apply keeps_get]. Qed.

Create HintDb keeps.
#[export] Hint Resolve keeps_ret keeps_raise keeps_error keeps_lookup
  keeps_hasattr keeps_get keeps_set keeps_add keeps_set_default keeps_of_type
  keeps_sym_check_type : keeps.

Ltac keep :=
  repeat first
    [ solve [auto with keeps]
    | apply keeps_bind; [|intros]
    | match goal with
      | |- keeps (if ?b then _ else _) => destruct b
      | |- keeps (match ?x with _ => _ end) => destruct x
      end ].

Section MoreProperties.

Variable rel_ops : ExprType → list string.

Lemma keeps_visit_expr e : keeps (visit_expr rel_ops e).
Proof.
  induction e; simpl;
    unfold visit_Literal, visit_LoadLocation, check_type_unary,
      check_type_binary, check_type_rel; simpl; keep.
Qed.

Lemma keeps_visit_statement st : keeps (visit_statement rel_ops st).
Proof.
  destruct st as [d|d|a]; simpl;
    unfold visit_ConstDeclaration, visit_VarDeclaration,
      visit_AssignmentStatement, check_location_type, visit_Typename,
      visit_opt_expr;
    keep; apply keeps_visit_expr.
Qed.

Lemma keeps_visit_statements l : keeps (visit_statements rel_ops l).
Proof.
  induction l as [|st rest IH]; simpl; keep;
    first [apply keeps_visit_statement | exact IH].
Qed.

(** X1. [SymbolTable.add] then [lookup]: the name maps to the value just
    added, whatever it was bound to before; every other name is looked up
    as before; nothing else of the state moves. *)
Theorem symtab_add_lookup name value s :
  ∃ s', add name value s = Ok tt s'
    ∧ lookup name s' = Ok (Some value) s'
    ∧ (∀ other, other ≠ name → lookup other s' = Ok (symtab s !! other) s')
    ∧ (∀ earlier, add name value (bind_name s name earlier) = Ok tt s')
    ∧ types s' = types s ∧ inits s' = inits s ∧ errors s' = errors s.
Proof.
  eexists. split; [reflexivity|]. unfold lookup, add, bind_name. simpl.
  repeat split.
  - now rewrite lookup_insert_eq.
  - intros other Hne. now rewrite lookup_insert_ne.
  - intros earlier. now rewrite insert_insert_eq.
Qed.

(** X2. The table of a fresh visitor: each built-in type name is bound to
    its type, and a name that is none of the four is looked up as [None],
    without an exception. *)
Theorem fresh_table_builtins (t : ExprType) (name : string) :
  lookup (typename t) init_state = Ok (Some (SymType t)) init_state
  ∧ (name ∉ ["int"; "float"; "string"; "bool"] →
     lookup name init_state = Ok None init_state).
Proof.
  clear rel_ops. split.
  - now destruct t.
  - intros H. unfold lookup.
    assert (symtab init_state !! name = None) as ->; [|reflexivity].
    unfold init_state, init_symtab. cbn [symtab].
    rewrite !lookup_insert_ne; [apply lookup_empty | ..];
      intros <-; apply H; set_solver.
Qed.

(** X3. Visiting an expression, whether it returns or raises, leaves the
    symbol table and the installed initializers as they were and only adds
    diagnostics after the earlier ones. *)
Theorem visit_expr_keeps_symtab e s :
  symtab (final_state (visit_expr rel_ops e s)) = symtab s
  ∧ inits (final_state (visit_expr rel_ops e s)) = inits s
  ∧ ∃ l, errors (final_state (visit_expr rel_ops e s)) = (errors s ++ l)%list.
Proof. exact (frames_visit_expr rel_ops e s). Qed.

(** X4. A pass over a whole program, whether it returns or raises, never
    unbinds a name, never removes a [check_type] attribute or an installed
    initializer, and never retracts a diagnostic. *)
Theorem visit_Program_grows (node : Program) s :
  (∀ name, is_Some (symtab s !! name) →
     is_Some (symtab (final_state (visit_Program rel_ops node s)) !! name))
  ∧ (∀ o, is_Some (types s !! o) →
       is_Some (types (final_state (visit_Program rel_ops node s)) !! o))
  ∧ (∀ o, is_Some (inits s !! o) →
       is_Some (inits (final_state (visit_Program rel_ops node s)) !! o))
  ∧ ∃ l, errors (final_state (visit_Program rel_ops node s)) = (errors s ++ l)%list.
Proof. exact (keeps_visit_statements (statements node) s). Qed.

Lemma hasattr_absent o s :
  types s !! o = None → hasattr_check_type o s = Ok false s.
Proof.
  intros H. unfold hasattr_check_type.
  rewrite bool_decide_eq_false_2; [reflexivity|]. rewrite H. now intros [? ?].
Qed.

Lemma check_type_unary_cases lineno op val s :
  check_type_unary lineno op val s =
    match types s !! expr_oid val with
    | None => Ok None s
    | Some None => Raise (AttributeError "NoneType" "unary_ops") s
    | Some (Some t) =>
        Ok (Some t) (if op_in op (unary_ops t) then s
                     else report s lineno (UnaryNotSupported op))
    end.
Proof.
  unfold check_type_unary.
  destruct (types s !! expr_oid val) as [[t|]|] eqn:E.
  - rewrite (bind_ok _ _ _ _ _ (hasattr_present _ _ _ E)). simpl.
    rewrite (bind_ok _ _ _ _ _ (get_present "expr" _ _ _ E)). mrun.
    now destruct (op_in op (unary_ops t)).
  - rewrite (bind_ok _ _ _ _ _ (hasattr_present _ _ _ E)). simpl.
    now rewrite (bind_ok _ _ _ _ _ (get_present "expr" _ _ _ E)).
  - now rewrite (bind_ok _ _ _ _ _ (hasattr_absent _ _ E)).
Qed.

(** X5. A Unary-op node whose operand, once visited, carries a type: the
    node gets the operand's type whether or not the operator is supported,
    and "unary operator not supported" is reported exactly when the
    operator is not among the type's unary operators. *)
Theorem visit_Unaryop_typed o lineno op e t s s1 :
  visit_expr rel_ops e s = Ok tt s1 →
  types s1 !! expr_oid e = Some (Some t) →
  visit_expr rel_ops (Unaryop o lineno op e) s =
    Ok tt (attach (if op_in op (unary_ops t) then s1
                   else report s1 lineno (UnaryNotSupported op)) o (Some t)).
Proof.
  intros Hv Ht. simpl. rewrite (bind_ok _ _ _ _ _ Hv).
  unfold mbind, M_bind. rewrite check_type_unary_cases, Ht. reflexivity.
Qed.

(** X6. A Unary-op node whose operand is left without a [check_type]
    attribute by its visit (an unresolved name, say): nothing is reported
    for the node and its own attribute is set to [None], so the node does
    pass a later [hasattr] test. *)
Theorem visit_Unaryop_untyped o lineno op e s s1 :
  visit_expr rel_ops e s = Ok tt s1 →
  types s1 !! expr_oid e = None →
  visit_expr rel_ops (Unaryop o lineno op e) s = Ok tt (attach s1 o None)
  ∧ hasattr_check_type o (attach s1 o None) = Ok true (attach s1 o None).
Proof.
  intros Hv Ht. split.
  - simpl. rewrite (bind_ok _ _ _ _ _ Hv).
    unfold mbind, M_bind. rewrite check_type_unary_cases, Ht. reflexivity.
  - eapply hasattr_present. simpl. apply lookup_insert_eq.
Qed.

(** X7. A Unary-op node whose operand carries [None] as [check_type] (the
    attribute is present, and empty): the visit raises an AttributeError
    and reports nothing for the node. *)
Theorem visit_Unaryop_none_raises o lineno op e s s1 :
  visit_expr rel_ops e s = Ok tt s1 →
  types s1 !! expr_oid e = Some None →
  visit_expr rel_ops (Unaryop o lineno op e) s =
    Raise (AttributeError "NoneType" "unary_ops") s1.
Proof.
  intros Hv Ht. simpl. rewrite (bind_ok _ _ _ _ _ Hv).
  unfold mbind, M_bind. rewrite check_type_unary_cases, Ht. reflexivity.
Qed.

(** X8. A Binary-op node whose operands, once visited, both carry a type:
    when the types differ exactly one "LHS/RHS types" diagnostic is added
    and the node gets the left type; when they agree and the operator is
    supported nothing is reported and the node gets that type. *)
Theorem visit_Binop_typed o lineno op l r tl tr s s1 s2 :
  visit_expr rel_ops l s = Ok tt s1 →
  visit_expr rel_ops r s1 = Ok tt s2 →
  types s2 !! expr_oid l = Some (Some tl) →
  types s2 !! expr_oid r = Some (Some tr) →
  (tl ≠ tr →
     visit_expr rel_ops (Binop o lineno op l r) s =
       Ok tt (attach (report s2 lineno (BinaryMismatch op)) o (Some tl)))
  ∧ (tl = tr → op ∈ binary_ops tl →
     visit_expr rel_ops (Binop o lineno op l r) s = Ok tt (attach s2 o (Some tl))).
Proof.
  intros Hvl Hvr Hl Hr. simpl.
  rewrite (bind_ok _ _ _ _ _ Hvl), (bind_ok _ _ _ _ _ Hvr).
  unfold mbind, M_bind.
  rewrite (check_type_binary_typed lineno op l r tl tr s2 Hl Hr).
  split.
  - intros Hne. now rewrite decide_False by assumption.
  - intros Heq Hop. rewrite decide_True by assumption.
    unfold op_in. now rewrite bool_decide_eq_true_2 by assumption.
Qed.

(** X9. A Relational-op node whose operands carry the same type, with an
    operator among that type's relational operators: nothing is reported
    and the node gets [BoolType]. *)
Theorem visit_Relop_supported o lineno op l r t s s1 s2 :
  visit_expr rel_ops l s = Ok tt s1 →
  visit_expr rel_ops r s1 = Ok tt s2 →
  types s2 !! expr_oid l = Some (Some t) →
  types s2 !! expr_oid r = Some (Some t) →
  op ∈ rel_ops t →
  visit_expr rel_ops (Relop o lineno op l r) s =
    Ok tt (attach s2 o (Some BoolType)).
Proof.
  intros Hvl Hvr Hl Hr Hop. simpl.
  rewrite (bind_ok _ _ _ _ _ Hvl), (bind_ok _ _ _ _ _ Hvr).
  unfold mbind, M_bind.
  rewrite (check_type_rel_typed rel_ops lineno op l r t t s2 Hl Hr).
  rewrite decide_True by reflexivity.
  unfold op_in. now rewrite bool_decide_eq_true_2 by assumption.
Qed.

(** X10. A Binary-op or Relational-op node with an operand left without a
    [check_type] attribute: nothing is reported for the node, whatever the
    operator and the other operand, and its attribute is set to [None]. *)
Theorem visit_Binop_untyped o lineno op l r s s1 s2 :
  visit_expr rel_ops l s = Ok tt s1 →
  visit_expr rel_ops r s1 = Ok tt s2 →
  types s2 !! expr_oid l = None ∨ types s2 !! expr_oid r = None →
  visit_expr rel_ops (Binop o lineno op l r) s = Ok tt (attach s2 o None)
  ∧ visit_expr rel_ops (Relop o lineno op l r) s = Ok tt (attach s2 o None).
Proof.
  intros Hvl Hvr Hno.
  assert (Hand : ∃ bl br, hasattr_check_type (expr_oid l) s2 = Ok bl s2
                   ∧ hasattr_check_type (expr_oid r) s2 = Ok br s2
                   ∧ bl && br = false).
  { unfold hasattr_check_type. do 2 eexists. split; [reflexivity|].
    split; [reflexivity|].
    destruct Hno as [H|H]; rewrite H;
      rewrite (bool_decide_eq_false_2 (is_Some None)) by (now intros [? ?]);
      [reflexivity | apply andb_false_r]. }
  destruct Hand as (bl & br & Hbl & Hbr & Hf).
  split; simpl;
    rewrite (bind_ok _ _ _ _ _ Hvl), (bind_ok _ _ _ _ _ Hvr);
    [unfold check_type_binary | unfold check_type_rel];
    unfold mbind, M_bind; rewrite Hbl, Hbr, Hf; reflexivity.
Qed.

Lemma check_type_binary_cases lineno op l r s :
  check_type_binary lineno op l r s =
    match types s !! expr_oid l, types s !! expr_oid r with
    | Some lt, Some rt =>
        if bool_decide (lt ≠ rt) then Ok lt (report s lineno (BinaryMismatch op))
        else match lt with
             | None => Raise (AttributeError "NoneType" "binary_ops") s
             | Some tl =>
                 Ok (Some tl) (if op_in op (binary_ops tl) then s
                               else report s lineno (BinaryNotSupported op "RHS"))
             end
    | _, _ => Ok None s
    end.
Proof.
  unfold check_type_binary.
  destruct (types s !! expr_oid l) as [lt|] eqn:El.
  - rewrite (bind_ok _ _ _ _ _ (hasattr_present _ _ _ El)).
    destruct (types s !! expr_oid r) as [rt|] eqn:Er.
    + rewrite (bind_ok _ _ _ _ _ (hasattr_present _ _ _ Er)). simpl.
      rewrite (bind_ok _ _ _ _ _ (get_present "expr" _ _ _ El)).
      rewrite (bind_ok _ _ _ _ _ (get_present "expr" _ _ _ Er)).
      case_bool_decide as Hd; [reflexivity|].
      destruct (decide (lt = rt)) as [->|Hne]; [|exfalso; tauto].
      destruct rt as [t|]; [|reflexivity].
      mrun. now destruct (op_in op (binary_ops t)).
    + now rewrite (bind_ok _ _ _ _ _ (hasattr_absent _ _ Er)).
  - rewrite (bind_ok _ _ _ _ _ (hasattr_absent _ _ El)).
    destruct (types s !! expr_oid r) as [rt|] eqn:Er.
    + now rewrite (bind_ok _ _ _ _ _ (hasattr_present _ _ _ Er)).
    + now rewrite (bind_ok _ _ _ _ _ (hasattr_absent _ _ Er)).
Qed.

Lemma check_type_rel_cases lineno op l r s :
  check_type_rel rel_ops lineno op l r s =
    match types s !! expr_oid l, types s !! expr_oid r with
    | Some lt, Some rt =>
        if bool_decide (lt ≠ rt) then Ok lt (report s lineno (RelMismatch op))
        else match lt with
             | None => Raise (AttributeError "NoneType" "rel_ops") s
             | Some tl =>
                 Ok (Some BoolType)
                    (if op_in op (rel_ops tl) then s
                     else report s lineno (RelNotSupported op "RHS"))
             end
    | _, _ => Ok None s
    end.
Proof.
  unfold check_type_rel.
  destruct (types s !! expr_oid l) as [lt|] eqn:El.
  - rewrite (bind_ok _ _ _ _ _ (hasattr_present _ _ _ El)).
    destruct (types s !! expr_oid r) as [rt|] eqn:Er.
    + rewrite (bind_ok _ _ _ _ _ (hasattr_present _ _ _ Er)). simpl.
      rewrite (bind_ok _ _ _ _ _ (get_present "expr" _ _ _ El)).
      rewrite (bind_ok _ _ _ _ _ (get_present "expr" _ _ _ Er)).
      case_bool_decide as Hd; [reflexivity|].
      destruct (decide (lt = rt)) as [->|Hne]; [|exfalso; tauto].
      destruct rt as [t|]; [|reflexivity].
      mrun. now destruct (op_in op (rel_ops t)).
    + now rewrite (bind_ok _ _ _ _ _ (hasattr_absent _ _ Er)).
  - rewrite (bind_ok _ _ _ _ _ (hasattr_absent _ _ El)).
    destruct (types s !! expr_oid r) as [rt|] eqn:Er.
    + now rewrite (bind_ok _ _ _ _ _ (hasattr_present _ _ _ Er)).
    + now rewrite (bind_ok _ _ _ _ _ (hasattr_absent _ _ Er)).
Qed.

(** X11. Whatever the operands and the state, [check_type_binary] and
    [check_type_rel] add at most one diagnostic, and never one naming the
    LHS: the two membership tests run on equal types, so the RHS marker
    always overwrites the LHS one. *)
Theorem operator_check_never_names_lhs lineno op l r s :
  (errors (final_state (check_type_binary lineno op l r s)) = errors s
   ∨ errors (final_state (check_type_binary lineno op l r s))
     = (errors s ++ [(lineno, BinaryMismatch op)])%list
   ∨ errors (final_state (check_type_binary lineno op l r s))
     = (errors s ++ [(lineno, BinaryNotSupported op "RHS")])%list)
  ∧ (errors (final_state (check_type_rel rel_ops lineno op l r s)) = errors s
     ∨ errors (final_state (check_type_rel rel_ops lineno op l r s))
       = (errors s ++ [(lineno, RelMismatch op)])%list
     ∨ errors (final_state (check_type_rel rel_ops lineno op l r s))
       = (errors s ++ [(lineno, RelNotSupported op "RHS")])%list).
Proof.
  rewrite check_type_binary_cases, check_type_rel_cases.
  destruct (types s !! expr_oid l) as [[tl|]|];
    destruct (types s !! expr_oid r) as [rt|];
    repeat case_bool_decide; simpl;
    repeat match goal with
           | |- context [op_in ?o ?ops] => destruct (op_in o ops)
           end; simpl; tauto.
Qed.

(** X12. Two operands that both carry [None] as [check_type] pass the
    [hasattr] guard and compare equal, so the Binary-op (or Relational-op)
    visit raises an AttributeError instead of reporting. *)
Theorem visit_Binop_none_raises o lineno op l r s s1 s2 :
  visit_expr rel_ops l s = Ok tt s1 →
  visit_expr rel_ops r s1 = Ok tt s2 →
  types s2 !! expr_oid l = Some None →
  types s2 !! expr_oid r = Some None →
  visit_expr rel_ops (Binop o lineno op l r) s =
    Raise (AttributeError "NoneType" "binary_ops") s2
  ∧ visit_expr rel_ops (Relop o lineno op l r) s =
      Raise (AttributeError "NoneType" "rel_ops") s2.
Proof.
  intros Hvl Hvr Hl Hr. split; simpl;
    rewrite (bind_ok _ _ _ _ _ Hvl), (bind_ok _ _ _ _ _ Hvr);
    unfold mbind, M_bind;
    rewrite ?check_type_binary_cases, ?check_type_rel_cases, Hl, Hr;
    now rewrite bool_decide_eq_false_2 by (intros H; now apply H).
Qed.

(** X13. A Load-Location that does not resolve to a node: for an unbound
    name "name not found" is reported, for a built-in type name "cannot use
    ... outside of variable declarations"; either way the visit returns
    and the node is not given a [check_type] attribute. *)
Theorem visit_LoadLocation_unresolved o lineno location s :
  (symtab s !! loc_name location = None →
     visit_LoadLocation o lineno location s =
       Ok tt (report s lineno (NameNotFound (loc_name location))))
  ∧ (∀ t, symtab s !! loc_name location = Some (SymType t) →
       visit_LoadLocation o lineno location s =
         Ok tt (report s lineno (CannotUseType (typename t))))
  ∧ ∀ msg, types (report s lineno msg) !! o = types s !! o.
Proof.
  unfold visit_LoadLocation, lookup. repeat split.
  - intros H. mrun. now rewrite H.
  - intros t H. mrun. now rewrite H.
Qed.

Lemma visit_LoadLocation_adopts o lineno location sym t s :
  symtab s !! loc_name location = Some sym →
  (∀ t', sym ≠ SymType t') →
  sym_check_type sym s = Ok (Some t) s →
  visit_LoadLocation o lineno location s = Ok tt (attach s o (Some t)).
Proof.
  intros Hsym Hnt Hct. unfold visit_LoadLocation, lookup.
  unfold mbind at 1, M_bind at 1. rewrite Hsym.
  destruct sym as [t'| | |]; [now destruct (Hnt t') | | |];
    unfold mbind, M_bind; now rewrite Hct.
Qed.

(** X14. A Load-Location whose name resolves to a declaration (or recorded
    expression) carrying a type adopts that type and reports nothing. *)
Theorem visit_LoadLocation_typed o lineno location sym t s :
  symtab s !! loc_name location = Some sym →
  (∀ t', sym ≠ SymType t') →
  sym_check_type sym s = Ok (Some t) s →
  visit_LoadLocation o lineno location s = Ok tt (attach s o (Some t)).
Proof. apply visit_LoadLocation_adopts. Qed.

Lemma set_last_present {A} (m : M A) (f : A → option ExprType) o s s' :
  (m ≫= λ a, set_check_type o (f a)) s = Ok tt s' →
  is_Some (types s' !! o).
Proof.
  unfold mbind, M_bind. destruct (m s) as [a s1|e s1]; [|discriminate].
  intros [= <-]. simpl. rewrite lookup_insert_eq. eauto.
Qed.

(** X15. Once its visit has returned, a Literal, Unary-op, Binary-op or
    Relational-op node has a [check_type] attribute (which may hold [None]);
    only a Load-Location can be left without one. *)
Theorem visited_node_has_attribute e s s' :
  visit_expr rel_ops e s = Ok tt s' →
  (∀ o lineno location, e ≠ LoadLocation o lineno location) →
  is_Some (types s' !! expr_oid e).
Proof.
  intros Hv Hnl. destruct e as [o l v|o l loc|o l op e1|o l op e1 e2|o l op e1 e2];
    simpl in *.
  - unfold visit_Literal in Hv.
    exact (set_last_present _ (λ _, typemap (type_of v)) _ _ _ Hv).
  - now destruct (Hnl o l loc).
  - unfold mbind at 1, M_bind at 1 in Hv.
    destruct (visit_expr rel_ops e1 s) as [[] s1|]; [|discriminate].
    exact (set_last_present _ (λ ct, ct) _ _ _ Hv).
  - unfold mbind at 1, M_bind at 1 in Hv.
    destruct (visit_expr rel_ops e1 s) as [[] s1|]; [|discriminate].
    unfold mbind at 1, M_bind at 1 in Hv.
    destruct (visit_expr rel_ops e2 s1) as [[] s2|]; [|discriminate].
    exact (set_last_present _ (λ ct, ct) _ _ _ Hv).
  - unfold mbind at 1, M_bind at 1 in Hv.
    destruct (visit_expr rel_ops e1 s) as [[] s1|]; [|discriminate].
    unfold mbind at 1, M_bind at 1 in Hv.
    destruct (visit_expr rel_ops e2 s1) as [[] s2|]; [|discriminate].
    exact (set_last_present _ (λ ct, ct) _ _ _ Hv).
Qed.

(** X16. A Typename that resolves to a built-in type gets that type and
    nothing is reported; one that is unbound, or bound to a declaration or
    an expression, is reported as "not a valid type" and the node is left
    without attribute.  The visit returns in both cases. *)
Theorem visit_Typename_cases (node : Typename) s :
  (∀ t, symtab s !! tn_name node = Some (SymType t) →
     visit_Typename node s = Ok tt (attach s (tn_oid node) (Some t)))
  ∧ ((∀ t, symtab s !! tn_name node ≠ Some (SymType t)) →
     visit_Typename node s =
       Ok tt (report s (tn_lineno node) (NotValidType (tn_name node)))).
Proof.
  unfold visit_Typename, lookup. split.
  - intros t H. mrun. now rewrite H.
  - intros H. mrun.
    destruct (symtab s !! tn_name node) as [[t| | |]|] eqn:E; try reflexivity.
    now destruct (H t).
Qed.

Lemma check_location_type_unvisited (node : AssignmentStatement) s :
  types s !! loc_oid (as_location node) = None →
  check_location_type node s = Ok tt s.
Proof.
  intros H. unfold check_location_type.
  rewrite (bind_ok _ _ _ _ _ (hasattr_absent _ _ H)).
  unfold hasattr_check_type. mrun. reflexivity.
Qed.

(** X17. An Assignment Statement whose target name is unbound: "name not
    defined" is reported first and the source expression is still visited;
    with the target Location never visited (no attribute on it) nothing
    else is checked, so the statement adds this one diagnostic to those of
    its source. *)
Theorem visit_AssignmentStatement_undefined (node : AssignmentStatement) s s1 :
  symtab s !! loc_name (as_location node) = None →
  visit_expr rel_ops (as_expr node)
    (report s (as_lineno node) (NameNotDefined (loc_name (as_location node))))
    = Ok tt s1 →
  types s1 !! loc_oid (as_location node) = None →
  visit_AssignmentStatement rel_ops node s = Ok tt s1.
Proof.
  intros Hsym Hv Hloc. unfold visit_AssignmentStatement, lookup.
  unfold mbind at 1 2, M_bind at 1 2. rewrite Hsym. simpl.
  unfold mbind at 1, M_bind at 1. rewrite Hv.
  now apply check_location_type_unvisited.
Qed.

(** X18. An Assignment Statement whose target resolves to a Variable
    Declaration, declaration and source both carrying a [check_type] once
    the source is visited: when the two values differ "cannot assign" is
    reported, once; when they are equal (and the target Location was never
    visited) nothing is reported. *)
Theorem visit_AssignmentStatement_variable (node : AssignmentStatement)
    d dt vt s s1 :
  symtab s !! loc_name (as_location node) = Some (SymVar d) →
  visit_expr rel_ops (as_expr node) s = Ok tt s1 →
  types s1 !! vd_oid d = Some dt →
  types s1 !! expr_oid (as_expr node) = Some vt →
  (dt ≠ vt →
     visit_AssignmentStatement rel_ops node s =
       Ok tt (report s1 (as_lineno node) (CannotAssign vt dt)))
  ∧ (dt = vt → types s1 !! loc_oid (as_location node) = None →
     visit_AssignmentStatement rel_ops node s = Ok tt s1).
Proof.
  intros Hsym Hv Hd Hvt.
  assert (Hrun : visit_AssignmentStatement rel_ops node s =
            (if bool_decide (dt ≠ vt)
             then error (as_lineno node) (CannotAssign vt dt)
             else check_location_type node) s1).
  { unfold visit_AssignmentStatement, lookup.
    unfold mbind at 1 2, M_bind at 1 2. rewrite Hsym. simpl.
    unfold mbind at 1, M_bind at 1. rewrite Hv.
    rewrite (bind_ok _ _ _ _ _ (hasattr_present _ _ _ Hd)).
    rewrite (bind_ok _ _ _ _ _ (hasattr_present _ _ _ Hvt)). simpl.
    rewrite (bind_ok _ _ _ _ _ (get_present "VarDeclaration" _ _ _ Hd)).
    now rewrite (bind_ok _ _ _ _ _ (get_present "expr" _ _ _ Hvt)). }
  rewrite Hrun. split.
  - intros Hne. now rewrite bool_decide_eq_true_2 by assumption.
  - intros Heq Hloc.
    rewrite bool_decide_eq_false_2 by (intros H; now apply H).
    now apply check_location_type_unvisited.
Qed.

(** X19. An Assignment Statement whose target name is bound to something
    that is not a declaration (the expression recorded by an earlier
    assignment, or a built-in type): the source is visited and, the target
    Location never being visited, no type is compared and nothing is
    reported for the statement itself. *)
Theorem visit_AssignmentStatement_unchecked (node : AssignmentStatement)
    sym s s1 :
  symtab s !! loc_name (as_location node) = Some sym →
  (∀ d, sym ≠ SymVar d) → (∀ d, sym ≠ SymConst d) →
  visit_expr rel_ops (as_expr node) s = Ok tt s1 →
  types s1 !! loc_oid (as_location node) = None →
  visit_AssignmentStatement rel_ops node s = Ok tt s1.
Proof.
  intros Hsym Hnv Hnc Hv Hloc. unfold visit_AssignmentStatement, lookup.
  unfold mbind at 1 2, M_bind at 1 2. rewrite Hsym. simpl.
  unfold mbind at 1, M_bind at 1. rewrite Hv.
  destruct sym as [t|d|d|e];
    [| now destruct (Hnv d) | now destruct (Hnc d) |];
    now apply check_location_type_unvisited.
Qed.

Lemma frames_visit_AssignmentStatement (node : AssignmentStatement) :
  frames (visit_AssignmentStatement rel_ops node).
Proof.
  unfold visit_AssignmentStatement, check_location_type.
  frame; apply frames_visit_expr.
Qed.

(** X20. In the loop of [visit_Program], an assignment that is checked
    without an exception rebinds its target name to its source expression,
    whatever the name was bound to (a declaration included), and leaves
    every other name alone. *)
Theorem visit_Program_records_assignment (a : AssignmentStatement) s s1 :
  visit_AssignmentStatement rel_ops a s = Ok tt s1 →
  visit_Program rel_ops (mkProgram [SAssign a]) s =
    Ok tt (bind_name s1 (loc_name (as_location a)) (SymExpr (as_expr a)))
  ∧ symtab (bind_name s1 (loc_name (as_location a)) (SymExpr (as_expr a)))
    = <[loc_name (as_location a) := SymExpr (as_expr a)]> (symtab s).
Proof.
  intros Hv. split.
  - unfold visit_Program. simpl. now rewrite (bind_ok _ _ _ _ _ Hv).
  - destruct (frames_visit_AssignmentStatement a s) as (Hsym & _).
    rewrite Hv in Hsym. simpl in *. now rewrite Hsym.
Qed.

(** X21. Checking a list of statements is checking its parts in turn on
    the threaded state; once a part raises, the rest is not visited. *)
Theorem visit_statements_app l1 l2 s :
  visit_statements rel_ops (l1 ++ l2) s =
    match visit_statements rel_ops l1 s with
    | Ok _ s1 => visit_statements rel_ops l2 s1
    | Raise e s1 => Raise e s1
    end.
Proof.
  revert s. induction l1 as [|st rest IH]; intros s; [reflexivity|].
  cbn [app visit_statements]. unfold mbind, M_bind.
  destruct (visit_statement rel_ops st s) as [[] s0|e s0]; [|reflexivity].
  destruct st as [d|d|a]; simpl; apply IH.
Qed.

(** X22. A Constant Declaration under a fresh name binds the name to
    itself before its initializer is visited, reports nothing of its own
    and adopts whatever [check_type] the initializer carries ([None]
    included); an initializer left without the attribute makes the
    declaration raise an AttributeError. *)
Theorem visit_ConstDeclaration_fresh (c : ConstDeclaration) s s1 :
  symtab s !! cd_name c = None →
  visit_expr rel_ops (cd_expr c) (bind_name s (cd_name c) (SymConst c))
    = Ok tt s1 →
  (∀ v, types s1 !! expr_oid (cd_expr c) = Some v →
     visit_ConstDeclaration rel_ops c s = Ok tt (attach s1 (cd_oid c) v))
  ∧ (types s1 !! expr_oid (cd_expr c) = None →
     visit_ConstDeclaration rel_ops c s =
       Raise (AttributeError "expr" "check_type") s1).
Proof.
  intros Hsym Hv.
  assert (Hrun : visit_ConstDeclaration rel_ops c s =
            (check_type ← get_check_type "expr" (expr_oid (cd_expr c));
             set_check_type (cd_oid c) check_type) s1).
  { unfold visit_ConstDeclaration, lookup, add.
    unfold mbind at 1 2 3, M_bind at 1 2 3. rewrite Hsym. simpl.
    unfold mbind at 1, M_bind at 1. now rewrite Hv. }
  rewrite Hrun. unfold get_check_type. mrun. split.
  - intros v Ht. now rewrite Ht.
  - intros Ht. now rewrite Ht.
Qed.

(** X23. A Constant Declaration whose initializer loads the constant's own
    name: the name is already bound to the declaration when the
    initializer is visited, the declaration has no [check_type] yet, and
    reading it raises an AttributeError. *)
Theorem visit_ConstDeclaration_self_reference (c : ConstDeclaration)
    o lineno location s :
  cd_expr c = LoadLocation o lineno location →
  loc_name location = cd_name c →
  types s !! cd_oid c = None →
  ∃ s', visit_ConstDeclaration rel_ops c s =
          Raise (AttributeError "ConstDeclaration" "check_type") s'
    ∧ symtab s' !! cd_name c = Some (SymConst c).
Proof.
  intros Hexpr Hname Hct.
  unfold visit_ConstDeclaration, lookup, add. rewrite Hexpr. simpl.
  unfold visit_LoadLocation, lookup, get_check_type. rewrite Hname. mrun.
  destruct (symtab s !! cd_name c); simpl;
    rewrite lookup_insert_eq; simpl; unfold get_check_type; simpl; rewrite Hct;
    (eexists; split; [reflexivity|]); simpl; apply lookup_insert_eq.
Qed.

Lemma visit_Typename_invalid (node : Typename) s :
  (∀ t, symtab s !! tn_name node ≠ Some (SymType t)) →
  visit_Typename node s =
    Ok tt (report s (tn_lineno node) (NotValidType (tn_name node))).
Proof.
  intros H. unfold visit_Typename, lookup. mrun.
  destruct (symtab s !! tn_name node) as [[t| | |]|] eqn:E; try reflexivity.
  now destruct (H t).
Qed.

Lemma visit_Typename_valid (node : Typename) t s :
  symtab s !! tn_name node = Some (SymType t) →
  visit_Typename node s = Ok tt (attach s (tn_oid node) (Some t)).
Proof. intros H. unfold visit_Typename, lookup. mrun. now rewrite H. Qed.

Lemma visit_VarDeclaration_runs_initializer (node : VarDeclaration) t e s :
  symtab s !! vd_name node = None →
  symtab s !! tn_name (vd_typename node) = Some (SymType t) →
  vd_expr node = Some e →
  visit_VarDeclaration rel_ops node s =
    visit_expr rel_ops e
      (attach (attach (bind_name s (vd_name node) (SymVar node))
                 (tn_oid (vd_typename node)) (Some t))
         (vd_oid node) (Some t)).
Proof.
  intros Hname Htn Hexpr.
  assert (Hne : vd_name node ≠ tn_name (vd_typename node)) by congruence.
  set (s0 := bind_name s (vd_name node) (SymVar node)).
  assert (Htn0 : symtab s0 !! tn_name (vd_typename node) = Some (SymType t))
    by (simpl; now rewrite lookup_insert_ne).
  set (s1 := attach s0 (tn_oid (vd_typename node)) (Some t)).
  assert (Ht1 : types s1 !! tn_oid (vd_typename node) = Some (Some t))
    by (simpl; apply lookup_insert_eq).
  unfold visit_VarDeclaration, lookup, add.
  unfold mbind at 1 2, M_bind at 1 2. rewrite Hname. fold s0.
  rewrite (bind_ok _ _ _ _ _ (visit_Typename_valid _ t s0 Htn0)). fold s1.
  rewrite (bind_ok _ _ _ _ _ (hasattr_present _ _ _ Ht1)).
  unfold mbind, M_bind.
  rewrite (get_present "Typename" _ _ _ Ht1). simpl.
  rewrite Hexpr. simpl.
  now destruct (visit_expr rel_ops e _) as [[] s2|ex s2].
Qed.

(** X24. A Variable Declaration with an initializer, under a fresh name and
    a valid type name: the name is bound and the declared type attached to
    the declaration before the initializer is visited, and the visit of
    the initializer is all that follows; the declared type is compared
    with nothing, so the declaration's diagnostics are exactly those of its
    initializer. *)
Theorem visit_VarDeclaration_initialized (node : VarDeclaration) t e s :
  symtab s !! vd_name node = None →
  symtab s !! tn_name (vd_typename node) = Some (SymType t) →
  vd_expr node = Some e →
  visit_VarDeclaration rel_ops node s =
    visit_expr rel_ops e
      (attach (attach (bind_name s (vd_name node) (SymVar node))
                 (tn_oid (vd_typename node)) (Some t))
         (vd_oid node) (Some t)).
Proof. apply visit_VarDeclaration_runs_initializer. Qed.

(** X25. A Variable Declaration whose initializer loads the variable's own
    name is accepted: with a fresh name and a valid type name the load
    resolves to the declaration, which already carries its declared type;
    nothing is reported. *)
Theorem visit_VarDeclaration_self_reference (node : VarDeclaration) t
    o lineno location s :
  symtab s !! vd_name node = None →
  symtab s !! tn_name (vd_typename node) = Some (SymType t) →
  vd_expr node = Some (LoadLocation o lineno location) →
  loc_name location = vd_name node →
  ∃ s', visit_VarDeclaration rel_ops node s = Ok tt s'
    ∧ types s' !! o = Some (Some t)
    ∧ errors s' = errors s.
Proof.
  intros Hname Htn Hexpr Hloc.
  rewrite (visit_VarDeclaration_runs_initializer node t _ s Hname Htn Hexpr).
  simpl.
  erewrite (visit_LoadLocation_adopts o lineno location (SymVar node) t).
  - eexists. split; [reflexivity|]. simpl.
    split; [apply lookup_insert_eq | reflexivity].
  - simpl. rewrite Hloc. apply lookup_insert_eq.
  - discriminate.
  - simpl. apply get_present. simpl. apply lookup_insert_eq.
Qed.

(** X26. A Variable Declaration without initializer whose type name is not
    a built-in type (a fresh declaration under a fresh name): "not a valid
    type" is reported, the declaration gets no [check_type], and reading
    the default off it raises an AttributeError; the name stays bound to
    the declaration. *)
Theorem visit_VarDeclaration_invalid_type (node : VarDeclaration) s :
  symtab s !! vd_name node = None →
  (∀ t, symtab s !! tn_name (vd_typename node) ≠ Some (SymType t)) →
  types s !! tn_oid (vd_typename node) = None →
  types s !! vd_oid node = None →
  vd_expr node = None →
  visit_VarDeclaration rel_ops node s =
    Raise (AttributeError "VarDeclaration" "check_type")
      (report (bind_name s (vd_name node) (SymVar node))
         (tn_lineno (vd_typename node))
         (NotValidType (tn_name (vd_typename node)))).
Proof.
  intros Hname Hnt Htn Hvd Hexpr.
  set (s0 := bind_name s (vd_name node) (SymVar node)).
  assert (Hnt0 : ∀ t, symtab s0 !! tn_name (vd_typename node) ≠ Some (SymType t)).
  { intros t. simpl.
    destruct (decide (vd_name node = tn_name (vd_typename node))) as [<-|Hne].
    - now rewrite lookup_insert_eq.
    - rewrite lookup_insert_ne by assumption. apply Hnt. }
  set (s1 := report s0 (tn_lineno (vd_typename node))
               (NotValidType (tn_name (vd_typename node)))).
  unfold visit_VarDeclaration, lookup, add.
  unfold mbind at 1 2, M_bind at 1 2. rewrite Hname. fold s0.
  rewrite (bind_ok _ _ _ _ _ (visit_Typename_invalid _ s0 Hnt0)). fold s1.
  rewrite (bind_ok _ _ _ _ _ (hasattr_absent _ s1 Htn)).
  rewrite Hexpr. unfold get_check_type. mrun. now rewrite Hvd.
Qed.

End MoreProperties.

(** ** The further properties at work on the examples *)

(** X2 at [int] and at the unbound [a]. *)
Lemma fresh_table_builtins_witness :
  ("a" ∉ ["int"; "float"; "string"; "bool"])
  ∧ lookup "int" init_state = Ok (Some (SymType IntType)) init_state
  ∧ lookup "a" init_state = Ok None init_state.
Proof.
  assert (H : "a" ∉ ["int"; "float"; "string"; "bool"])
    by (apply not_in_ops; reflexivity).
  split; [exact H|].
  destruct (fresh_table_builtins IntType "a") as [H1 H2].
  split; [exact H1 | exact (H2 H)].
Defined.

(** X5 at [- "x"]: the error is reported and the node is a string. *)
Lemma visit_Unaryop_typed_witness :
  let e := Literal 1 1 (PyStr "x") in
  let s1 := final_state (visit_expr comparison_ops e init_state) in
  visit_expr comparison_ops e init_state = Ok tt s1
  ∧ types s1 !! 1 = Some (Some StringType)
  ∧ visit_expr comparison_ops (Unaryop 2 1 "-" e) init_state =
      Ok tt (attach (report s1 1 (UnaryNotSupported "-")) 2 (Some StringType)).
Proof.
  intros e s1. split; [reflexivity|]. split; [reflexivity|].
  exact (visit_Unaryop_typed comparison_ops 2 1 "-" e StringType init_state s1
           eq_refl eq_refl).
Defined.

(** X6 at [- y], [y] undeclared. *)
Lemma visit_Unaryop_untyped_witness :
  let s1 := final_state (visit_expr comparison_ops load_y init_state) in
  visit_expr comparison_ops load_y init_state = Ok tt s1
  ∧ types s1 !! expr_oid load_y = None
  ∧ visit_expr comparison_ops (Unaryop 3 1 "-" load_y) init_state
    = Ok tt (attach s1 3 None)
  ∧ hasattr_check_type 3 (attach s1 3 None) = Ok true (attach s1 3 None).
Proof.
  intros s1. split; [reflexivity|]. split; [reflexivity|].
  exact (visit_Unaryop_untyped comparison_ops 3 1 "-" load_y init_state s1
           eq_refl eq_refl).
Defined.

(** X7 at the negation of a Literal holding [None]. *)
Lemma visit_Unaryop_none_raises_witness :
  let s1 := final_state (visit_expr comparison_ops none_literal init_state) in
  visit_expr comparison_ops none_literal init_state = Ok tt s1
  ∧ types s1 !! expr_oid none_literal = Some None
  ∧ visit_expr comparison_ops (Unaryop 9 1 "-" none_literal) init_state =
      Raise (AttributeError "NoneType" "unary_ops") s1.
Proof.
  intros s1. split; [reflexivity|]. split; [reflexivity|].
  exact (visit_Unaryop_none_raises comparison_ops 9 1 "-" none_literal
           init_state s1 eq_refl eq_refl).
Defined.

(** X8 at [1 + 2.5] and at [1 + 2]. *)
Lemma visit_Binop_typed_witness :
  let one := Literal 1 1 (PyInt 1) in
  let s1 := final_state (visit_expr comparison_ops one init_state) in
  (let r := Literal 2 1 (PyFloat 2.5%float) in
   let s2 := final_state (visit_expr comparison_ops r s1) in
   IntType ≠ FloatType
   ∧ visit_expr comparison_ops (Binop 3 1 "+" one r) init_state =
       Ok tt (attach (report s2 1 (BinaryMismatch "+")) 3 (Some IntType)))
  ∧ (let r := Literal 2 1 (PyInt 2) in
     let s2 := final_state (visit_expr comparison_ops r s1) in
     ("+" ∈ binary_ops IntType)
     ∧ visit_expr comparison_ops (Binop 3 1 "+" one r) init_state =
         Ok tt (attach s2 3 (Some IntType))).
Proof.
  intros one s1. split.
  - intros r s2. split; [discriminate|].
    apply (visit_Binop_typed comparison_ops 3 1 "+" one r IntType FloatType
             init_state s1 s2 eq_refl eq_refl eq_refl eq_refl).
    discriminate.
  - intros r s2.
    assert (Hop : "+" ∈ binary_ops IntType) by (simpl; set_solver).
    split; [exact Hop|].
    apply (visit_Binop_typed comparison_ops 3 1 "+" one r IntType IntType
             init_state s1 s2 eq_refl eq_refl eq_refl eq_refl);
      [reflexivity | exact Hop].
Defined.

(** X9 at [1 < 2]. *)
Lemma visit_Relop_supported_witness :
  let l := Literal 1 1 (PyInt 1) in
  let r := Literal 2 1 (PyInt 2) in
  let s1 := final_state (visit_expr comparison_ops l init_state) in
  let s2 := final_state (visit_expr comparison_ops r s1) in
  ("<" ∈ comparison_ops IntType)
  ∧ visit_expr comparison_ops (Relop 3 1 "<" l r) init_state =
      Ok tt (attach s2 3 (Some BoolType)).
Proof.
  intros l r s1 s2.
  assert (Hop : "<" ∈ comparison_ops IntType) by (simpl; set_solver).
  split; [exact Hop|].
  exact (visit_Relop_supported comparison_ops 3 1 "<" l r IntType init_state
           s1 s2 eq_refl eq_refl eq_refl eq_refl Hop).
Defined.

(** X10 at [y * 1] and [y < 1], [y] undeclared. *)
Lemma visit_Binop_untyped_witness :
  let r := Literal 3 1 (PyInt 1) in
  let s1 := final_state (visit_expr comparison_ops load_y init_state) in
  let s2 := final_state (visit_expr comparison_ops r s1) in
  types s2 !! expr_oid load_y = None
  ∧ visit_expr comparison_ops (Binop 4 1 "*" load_y r) init_state
    = Ok tt (attach s2 4 None)
  ∧ visit_expr comparison_ops (Relop 4 1 "*" load_y r) init_state
    = Ok tt (attach s2 4 None).
Proof.
  intros r s1 s2. split; [reflexivity|].
  exact (visit_Binop_untyped comparison_ops 4 1 "*" load_y r init_state s1 s2
           eq_refl eq_refl (or_introl eq_refl)).
Defined.

(** X12 at two Literals holding [None]. *)
Lemma visit_Binop_none_raises_witness :
  let r := Literal 3 1 PyNone in
  let s1 := final_state (visit_expr comparison_ops none_literal init_state) in
  let s2 := final_state (visit_expr comparison_ops r s1) in
  types s2 !! expr_oid none_literal = Some None
  ∧ types s2 !! expr_oid r = Some None
  ∧ visit_expr comparison_ops (Binop 4 1 "+" none_literal r) init_state =
      Raise (AttributeError "NoneType" "binary_ops") s2
  ∧ visit_expr comparison_ops (Relop 4 1 "+" none_literal r) init_state =
      Raise (AttributeError "NoneType" "rel_ops") s2.
Proof.
  intros r s1 s2. split; [reflexivity|]. split; [reflexivity|].
  exact (visit_Binop_none_raises comparison_ops 4 1 "+" none_literal r
           init_state s1 s2 eq_refl eq_refl eq_refl eq_refl).
Defined.

(** X13 at loads of the undeclared [y] and of the type name [int]. *)
Lemma visit_LoadLocation_unresolved_witness :
  symtab init_state !! "y" = None
  ∧ symtab init_state !! "int" = Some (SymType IntType)
  ∧ visit_LoadLocation 1 1 (mkLocation 2 1 "y") init_state =
      Ok tt (report init_state 1 (NameNotFound "y"))
  ∧ visit_LoadLocation 1 1 (mkLocation 2 1 "int") init_state =
      Ok tt (report init_state 1 (CannotUseType "int")).
Proof.
  split; [reflexivity|]. split; [reflexivity|]. split.
  - exact (proj1 (visit_LoadLocation_unresolved 1 1 (mkLocation 2 1 "y")
                    init_state) eq_refl).
  - exact (proj1 (proj2 (visit_LoadLocation_unresolved 1 1
                           (mkLocation 2 1 "int") init_state))
             IntType eq_refl).
Defined.

(** X14 at a load of [a] once [var a int;] has been checked. *)
Lemma visit_LoadLocation_typed_witness :
  symtab after_var_a !! "a" = Some (SymVar var_a)
  ∧ sym_check_type (SymVar var_a) after_var_a = Ok (Some IntType) after_var_a
  ∧ visit_LoadLocation 5 2 (mkLocation 6 2 "a") after_var_a =
      Ok tt (attach after_var_a 5 (Some IntType)).
Proof.
  split; [reflexivity|]. split; [reflexivity|].
  apply (visit_LoadLocation_typed 5 2 (mkLocation 6 2 "a") (SymVar var_a)
           IntType after_var_a); [reflexivity | discriminate | reflexivity].
Defined.

(** X15 at ["Hello" * "World"]. *)
Lemma visited_node_has_attribute_witness :
  visit_expr comparison_ops mul_str_str init_state =
    Ok tt (final_state (visit_expr comparison_ops mul_str_str init_state))
  ∧ is_Some (types (final_state (visit_expr comparison_ops mul_str_str init_state))
               !! expr_oid mul_str_str).
Proof.
  split; [reflexivity|].
  apply (visited_node_has_attribute comparison_ops mul_str_str init_state);
    [reflexivity | discriminate].
Defined.

(** X16 at the type names [int] and [foo]. *)
Lemma visit_Typename_cases_witness :
  symtab init_state !! "int" = Some (SymType IntType)
  ∧ (∀ t, symtab init_state !! "foo" ≠ Some (SymType t))
  ∧ visit_Typename (mkTypename 2 1 "int") init_state =
      Ok tt (attach init_state 2 (Some IntType))
  ∧ visit_Typename (mkTypename 2 1 "foo") init_state =
      Ok tt (report init_state 1 (NotValidType "foo")).
Proof.
  assert (H : ∀ t, symtab init_state !! "foo" ≠ Some (SymType t))
    by (intros t; discriminate).
  split; [reflexivity|]. split; [exact H|]. split.
  - exact (proj1 (visit_Typename_cases (mkTypename 2 1 "int") init_state)
             IntType eq_refl).
  - exact (proj2 (visit_Typename_cases (mkTypename 2 1 "foo") init_state) H).
Defined.

(** X17 at [a = 3;] in the fresh state. *)
Lemma visit_AssignmentStatement_undefined_witness :
  let s1 := final_state (visit_expr comparison_ops (as_expr assign_a_3)
                           (report init_state 1 (NameNotDefined "a"))) in
  symtab init_state !! "a" = None
  ∧ types s1 !! loc_oid (as_location assign_a_3) = None
  ∧ errors s1 = [(1, NameNotDefined "a")]
  ∧ visit_AssignmentStatement comparison_ops assign_a_3 init_state = Ok tt s1.
Proof.
  intros s1. split; [reflexivity|]. split; [reflexivity|]. split; [reflexivity|].
  exact (visit_AssignmentStatement_undefined comparison_ops assign_a_3
           init_state s1 eq_refl eq_refl eq_refl).
Defined.

(** X18 at [a = "x";] and at [a = 3;], both met after [var a int;]. *)
Lemma visit_AssignmentStatement_variable_witness :
  symtab after_var_a !! "a" = Some (SymVar var_a)
  ∧ (let s1 := final_state (visit_expr comparison_ops (as_expr assign_a_str)
                              after_var_a) in
     Some IntType ≠ Some StringType
     ∧ visit_AssignmentStatement comparison_ops assign_a_str after_var_a =
         Ok tt (report s1 2 (CannotAssign (Some StringType) (Some IntType))))
  ∧ (let node := mkAssign 2 (mkLocation 5 2 "a") (Literal 6 2 (PyInt 3)) in
     let s1 := final_state (visit_expr comparison_ops (as_expr node)
                              after_var_a) in
     types s1 !! 5 = None
     ∧ visit_AssignmentStatement comparison_ops node after_var_a = Ok tt s1).
Proof.
  split; [reflexivity|]. split.
  - intros s1. split; [discriminate|].
    apply (visit_AssignmentStatement_variable comparison_ops assign_a_str var_a
             (Some IntType) (Some StringType) after_var_a s1
             eq_refl eq_refl eq_refl eq_refl).
    discriminate.
  - intros node s1. split; [reflexivity|].
    apply (visit_AssignmentStatement_variable comparison_ops node var_a
             (Some IntType) (Some IntType) after_var_a s1
             eq_refl eq_refl eq_refl eq_refl); reflexivity.
Defined.

(** X19 at [a = "x";] met after the program [a = 3;]: the first assignment
    gave [a] the type [int], and the second is not compared with it. *)
Lemma visit_AssignmentStatement_unchecked_witness :
  let s1 := final_state (visit_expr comparison_ops (as_expr assign_a_str)
                           after_assign_a) in
  symtab after_assign_a !! "a" = Some (SymExpr (as_expr assign_a_3))
  ∧ types after_assign_a !! expr_oid (as_expr assign_a_3) = Some (Some IntType)
  ∧ types s1 !! expr_oid (as_expr assign_a_str) = Some (Some StringType)
  ∧ errors s1 = errors after_assign_a
  ∧ visit_AssignmentStatement comparison_ops assign_a_str after_assign_a = Ok tt s1.
Proof.
  intros s1. repeat (split; [reflexivity|]).
  apply (visit_AssignmentStatement_unchecked comparison_ops assign_a_str
           (SymExpr (as_expr assign_a_3)) after_assign_a s1);
    [reflexivity | discriminate | discriminate | reflexivity | reflexivity].
Defined.

(** X20 at [a = "x";] met after [var a int;]: the declaration is replaced. *)
Lemma visit_Program_records_assignment_witness :
  let s1 := final_state (visit_AssignmentStatement comparison_ops assign_a_str
                           after_var_a) in
  symtab after_var_a !! "a" = Some (SymVar var_a)
  ∧ visit_AssignmentStatement comparison_ops assign_a_str after_var_a = Ok tt s1
  ∧ visit_Program comparison_ops (mkProgram [SAssign assign_a_str]) after_var_a =
      Ok tt (bind_name s1 "a" (SymExpr (as_expr assign_a_str)))
  ∧ symtab (bind_name s1 "a" (SymExpr (as_expr assign_a_str)))
    = <["a" := SymExpr (as_expr assign_a_str)]> (symtab after_var_a).
Proof.
  intros s1. split; [reflexivity|]. split; [reflexivity|].
  exact (visit_Program_records_assignment comparison_ops assign_a_str
           after_var_a s1 eq_refl).
Defined.

(** X22 at [const x = 1;] in the fresh state. *)
Lemma visit_ConstDeclaration_fresh_witness :
  let s1 := final_state (visit_expr comparison_ops (cd_expr const_x)
                           (bind_name init_state "x" (SymConst const_x))) in
  symtab init_state !! "x" = None
  ∧ types s1 !! expr_oid (cd_expr const_x) = Some (Some IntType)
  ∧ visit_ConstDeclaration comparison_ops const_x init_state =
      Ok tt (attach s1 (cd_oid const_x) (Some IntType)).
Proof.
  intros s1. split; [reflexivity|]. split; [reflexivity|].
  exact (proj1 (visit_ConstDeclaration_fresh comparison_ops const_x init_state
                  s1 eq_refl eq_refl) (Some IntType) eq_refl).
Defined.

(** X23 at [const a = a;] in the fresh state. *)
Lemma visit_ConstDeclaration_self_reference_witness :
  types init_state !! cd_oid const_a_self = None
  ∧ ∃ s', visit_ConstDeclaration comparison_ops const_a_self init_state =
            Raise (AttributeError "ConstDeclaration" "check_type") s'
      ∧ symtab s' !! cd_name const_a_self = Some (SymConst const_a_self).
Proof.
  split; [reflexivity|].
  exact (visit_ConstDeclaration_self_reference comparison_ops const_a_self
           2 1 (mkLocation 3 1 "a") init_state eq_refl eq_refl eq_refl).
Defined.

(** X24 at [var e int = 4.5;] in the fresh state: nothing is reported. *)
Lemma visit_VarDeclaration_initialized_witness :
  symtab init_state !! "e" = None
  ∧ symtab init_state !! "int" = Some (SymType IntType)
  ∧ visit_VarDeclaration comparison_ops var_e_float init_state =
      visit_expr comparison_ops (Literal 3 1 (PyFloat 4.5%float))
        (attach (attach (bind_name init_state "e" (SymVar var_e_float))
                   2 (Some IntType)) 1 (Some IntType))
  ∧ errors (final_state (visit_VarDeclaration comparison_ops var_e_float
                           init_state)) = [].
Proof.
  split; [reflexivity|]. split; [reflexivity|]. split; [|reflexivity].
  exact (visit_VarDeclaration_initialized comparison_ops var_e_float IntType
           (Literal 3 1 (PyFloat 4.5%float)) init_state eq_refl eq_refl eq_refl).
Defined.

(** X25 at [var a int = a;] in the fresh state. *)
Lemma visit_VarDeclaration_self_reference_witness :
  symtab init_state !! "a" = None
  ∧ symtab init_state !! "int" = Some (SymType IntType)
  ∧ ∃ s', visit_VarDeclaration comparison_ops var_a_self init_state = Ok tt s'
      ∧ types s' !! 3 = Some (Some IntType)
      ∧ errors s' = errors init_state.
Proof.
  split; [reflexivity|]. split; [reflexivity|].
  exact (visit_VarDeclaration_self_reference comparison_ops var_a_self IntType
           3 1 (mkLocation 4 1 "a") init_state eq_refl eq_refl eq_refl eq_refl).
Defined.

(** X26 at [var a foo;] in the fresh state. *)
Lemma visit_VarDeclaration_invalid_type_witness :
  symtab init_state !! "a" = None
  ∧ (∀ t, symtab init_state !! "foo" ≠ Some (SymType t))
  ∧ visit_VarDeclaration comparison_ops var_a_foo init_state =
      Raise (AttributeError "VarDeclaration" "check_type")
        (report (bind_name init_state "a" (SymVar var_a_foo))
           1 (NotValidType "foo")).
Proof.
  assert (H : ∀ t, symtab init_state !! "foo" ≠ Some (SymType t))
    by (intros t; discriminate).
  split; [reflexivity|]. split; [exact H|].
  exact (visit_VarDeclaration_invalid_type comparison_ops var_a_foo init_state
           eq_refl H eq_refl eq_refl eq_refl).
Defined.
